(** * Workflow state tracking and analytics layer of the lead generation agent

    Shallow embedding of the [listeners] package
    ([analytics_parser.py], [state_manager.py], [event_handlers.py],
    [ui_progress_listener.py]) and of [models/analytics_models.py].

    Python values are modelled by [pyval]; Python exceptions by [exn]; a
    call that may raise returns [res A].  A float ([flt]) is a finite
    rational, an infinity or NaN; [float()] rounds to binary64, sums of
    floats are kept exact (their rounding is not modelled).  Strings are
    strings of 8-bit characters; clock readings ([time.time()]) are
    explicit arguments. *)

From Stdlib Require Import String Ascii List ZArith QArith Qround Bool Lia DecimalString.
Import ListNotations.
Set Warnings "-register-all".
Open Scope Z_scope.

(* ------------------------------------------------------------------ *)
(** ** Python exceptions *)

Inductive exn : Type :=
| AttributeError
| TypeError
| ValueError
| OverflowError
| ZeroDivisionError
| ValidationError.

(** [str(e)] of a raised exception; the message text is represented by the
    exception class name. *)
Definition exn_str (e : exn) : string :=
  match e with
  | AttributeError => "AttributeError"
  | TypeError => "TypeError"
  | ValueError => "ValueError"
  | OverflowError => "OverflowError"
  | ZeroDivisionError => "ZeroDivisionError"
  | ValidationError => "ValidationError"
  end.

(** A computation that returns a value or raises. *)
Inductive res (A : Type) : Type :=
| Ok (a : A)
| Raise (e : exn).
Arguments Ok {A} a.
Arguments Raise {A} e.

Definition bind {A B : Type} (m : res A) (k : A -> res B) : res B :=
  match m with
  | Ok a => k a
  | Raise e => Raise e
  end.

Notation "'let*' x ':=' m 'in' k" := (bind m (fun x => k))
  (at level 200, x ident, m at level 100, k at level 200).

Definition returns {A : Type} (m : res A) : Prop := exists a, m = Ok a.

(* ------------------------------------------------------------------ *)
(** ** Floats *)

(** a Python [float]: a finite value, an infinity ([Inf true] is [-inf])
    or NaN; the sign of a zero is not kept *)
Inductive flt : Type :=
| Fin (q : Q)
| Inf (neg : bool)
| NaN.

(** the integer nearest to [q], ties to even *)
Definition round_half_even (q : Q) : Z :=
  let f := Qfloor q in
  match Qcompare (q - inject_Z f) (1 # 2) with
  | Lt => f
  | Gt => f + 1
  | Eq => if Z.even f then f else f + 1
  end.

(** [b ^ e] as a rational, for any integer [e] *)
Definition qpow (b e : Z) : Q :=
  if 0 <=? e then inject_Z (b ^ e) else (1 / inject_Z (b ^ (- e)))%Q.

Fixpoint zlog10_aux (fuel : nat) (n : Z) : Z :=
  match fuel with
  | O => 0
  | S f => if n <? 10 then 0 else 1 + zlog10_aux f (n / 10)
  end.

(** the floor of the base-[b] logarithm of a positive integer, [b] 2 or 10 *)
Definition zlog (b n : Z) : Z :=
  if b =? 2 then Z.log2 n else zlog10_aux (S (Z.to_nat (Z.log2 n))) n.

(** the [k] with [b ^ k <= a < b ^ (k + 1)], for a positive rational [a] *)
Definition qlog (b : Z) (a : Q) : Z :=
  let k := zlog b (Qnum a) - zlog b (Zpos (Qden a)) in
  if Qle_bool (qpow b k) a then k else k - 1.

Definition qabs (q : Q) : Q := Qmake (Z.abs (Qnum q)) (Qden q).

(** the binary64 value nearest to [q] (53-bit significands, subnormals
    down to [2 ^ -1074], ties to even); a magnitude that rounds to
    [2 ^ 1024] or beyond is an infinity *)
Definition round64 (q : Q) : flt :=
  if Qeq_bool q 0 then Fin 0 else
  let a := qabs q in
  let e := Z.max (qlog 2 a - 52) (-1074) in
  let v := (inject_Z (round_half_even (a / qpow 2 e)) * qpow 2 e)%Q in
  let neg := negb (Qle_bool 0 q) in
  if Qle_bool (qpow 2 1024) v then Inf neg else Fin (if neg then - v else v)%Q.

(** [x < y] on floats: false whenever NaN is involved *)
Definition flt_lt (x y : flt) : bool :=
  match x, y with
  | Fin a, Fin b => negb (Qle_bool b a)
  | Fin _, Inf s => negb s
  | Inf s, Fin _ => s
  | Inf s, Inf t => s && negb t
  | _, _ => false
  end.

(** [x <= y] on floats *)
Definition flt_le (x y : flt) : bool :=
  match x, y with
  | Fin a, Fin b => Qle_bool a b
  | Fin _, Inf s => negb s
  | Inf s, Fin _ => s
  | Inf s, Inf t => s || negb t
  | _, _ => false
  end.

(** [x == y] on floats: NaN equals nothing *)
Definition flt_eqb (x y : flt) : bool :=
  match x, y with
  | Fin a, Fin b => Qeq_bool a b
  | Inf s, Inf t => Bool.eqb s t
  | _, _ => false
  end.

(** [x + y] on floats, kept exact on finite values *)
Definition flt_add (x y : flt) : flt :=
  match x, y with
  | Fin a, Fin b => Fin (a + b)
  | Inf s, Fin _ | Fin _, Inf s => Inf s
  | Inf s, Inf t => if Bool.eqb s t then Inf s else NaN
  | _, _ => NaN
  end.

(** the same float: equal values, or both NaN *)
Definition flt_eqv (x y : flt) : Prop :=
  match x, y with
  | Fin a, Fin b => (a == b)%Q
  | Inf s, Inf t => s = t
  | NaN, NaN => True
  | _, _ => False
  end.

Definition flt_same (x y : flt) : bool :=
  match x, y with
  | Fin a, Fin b => Qeq_bool a b
  | Inf s, Inf t => Bool.eqb s t
  | NaN, NaN => true
  | _, _ => false
  end.

(** decimal digits of an integer *)
Definition zstr (z : Z) : string := NilZero.string_of_int (Z.to_int z).

Fixpoint zeros (n : nat) : string :=
  match n with O => EmptyString | S k => String "0"%char (zeros k) end.

(** removes the trailing zeros of [d * 10 ^ e] *)
Fixpoint strip_zeros (fuel : nat) (d e : Z) : Z * Z :=
  match fuel with
  | O => (d, e)
  | S f => if (0 <? d) && (d mod 10 =? 0) then strip_zeros f (d / 10) (e + 1) else (d, e)
  end.

(** the shortest [d * 10 ^ e] that [round64] maps back to the binary64
    value [v > 0], [10 ^ k <= v < 10 ^ (k + 1)]: [n] digits are tried from
    1 on, and of the two [n]-digit candidates around [v] that map back the
    nearer is kept, ties to an even [d] *)
Fixpoint shortest (fuel : nat) (n : Z) (v : Q) (k : Z) : Z * Z :=
  match fuel with
  | O => (0, 0)
  | S f =>
      let e := k - n + 1 in
      let lo := Qfloor (v / qpow 10 e) in
      let hi := lo + 1 in
      let back := fun d => flt_same (round64 (inject_Z d * qpow 10 e)) (Fin v) in
      let dlo := (v - inject_Z lo * qpow 10 e)%Q in
      let dhi := (inject_Z hi * qpow 10 e - v)%Q in
      match back lo, back hi with
      | true, true =>
          match Qcompare dlo dhi with
          | Lt => (lo, e)
          | Gt => (hi, e)
          | Eq => if Z.even lo then (lo, e) else (hi, e)
          end
      | true, false => (lo, e)
      | false, true => (hi, e)
      | false, false => shortest f (n + 1) v k
      end
  end.

(** [repr()] of a positive binary64 value: the shortest digits, in fixed
    notation when the decimal point falls within [-4 < decpt <= 16], else
    in exponent notation *)
Definition repr_pos (v : Q) : string :=
  let (d0, e0) := shortest 17 1 v (qlog 10 v) in
  let (d, e) := strip_zeros 17 d0 e0 in
  let s := zstr d in
  let nd := Z.of_nat (String.length s) in
  let decpt := e + nd in
  if (decpt <=? -4) || (16 <? decpt) then
    let x := decpt - 1 in
    let mant := match s with
                | String c rest => String c (if 1 <? nd then String "."%char rest else EmptyString)
                | EmptyString => EmptyString
                end in
    let sign := if x <? 0 then "-"%string else "+"%string in
    let pad := if Z.abs x <? 10 then "0"%string else EmptyString in
    (mant ++ "e" ++ sign ++ pad ++ zstr (Z.abs x))%string
  else if decpt <=? 0 then ("0." ++ zeros (Z.to_nat (- decpt)) ++ s)%string
  else if decpt <? nd then
    (substring 0 (Z.to_nat decpt) s ++ "." ++ substring (Z.to_nat decpt) (String.length s) s)%string
  else (s ++ zeros (Z.to_nat (decpt - nd)) ++ ".0")%string.

(** [repr(x)], also [str(x)], of a float *)
Definition float_repr (x : flt) : string :=
  let inf := fun b : bool => if b then "-inf"%string else "inf"%string in
  match x with
  | NaN => "nan"
  | Inf b => inf b
  | Fin q =>
      match round64 q with
      | Fin v =>
          if Qeq_bool v 0 then "0.0"
          else if Qle_bool 0 v then repr_pos v else ("-" ++ repr_pos (- v))%string
      | Inf b => inf b
      | NaN => "nan"
      end
  end.

(* ------------------------------------------------------------------ *)
(** ** Python values *)

Inductive pyval : Type :=
| PNone
| PBool (b : bool)
| PInt (z : Z)
| PFloat (x : flt)
| PStr (s : string)
| PList (xs : list pyval)
| PDict (kvs : list (string * pyval))
(** an object: its attributes, [Some n] when it defines [__len__]
    returning [n], and what its [__str__] and [__repr__] return or raise *)
| PObj (attrs : list (string * pyval)) (size : option nat) (str_text repr_text : res string).

(* ------------------------------------------------------------------ *)
(** ** Builtins *)

(** dict lookup: the first binding of a key is the live one *)
Fixpoint lookup (k : string) (kvs : list (string * pyval)) : option pyval :=
  match kvs with
  | [] => None
  | (k', v) :: t => if String.eqb k k' then Some v else lookup k t
  end.

Definition has_key (k : string) (kvs : list (string * pyval)) : bool :=
  match lookup k kvs with Some _ => true | None => false end.

(** [d.get(k, default)] on a dict *)
Definition dict_get (kvs : list (string * pyval)) (k : string) (d : pyval)
  : pyval :=
  match lookup k kvs with Some v => v | None => d end.

(** [o.get(k, default)] on an arbitrary value: only dicts have [get] *)
Definition call_get (o : pyval) (k : string) (d : pyval) : res pyval :=
  match o with
  | PDict kvs => Ok (dict_get kvs k d)
  | _ => Raise AttributeError
  end.

(** [hasattr(o, name)] *)
Definition hasattr (o : pyval) (name : string) : bool :=
  match o with
  | PObj attrs _ _ _ => has_key name attrs
  | _ => false
  end.

Definition getattr (o : pyval) (name : string) : res pyval :=
  match o with
  | PObj attrs _ _ _ =>
      match lookup name attrs with Some v => Ok v | None => Raise AttributeError end
  | _ => Raise AttributeError
  end.

(** [hasattr(o, '__len__')] *)
Definition sized (o : pyval) : bool :=
  match o with
  | PStr _ | PList _ | PDict _ => true
  | PObj _ (Some _) _ _ => true
  | _ => false
  end.

(** [len(o)] *)
Definition py_len (o : pyval) : res nat :=
  match o with
  | PStr s => Ok (String.length s)
  | PList xs => Ok (List.length xs)
  | PDict kvs => Ok (List.length kvs)
  | PObj _ (Some n) _ _ => Ok n
  | _ => Raise TypeError
  end.

(** [bool(o)] *)
Definition truthy (o : pyval) : bool :=
  match o with
  | PNone => false
  | PBool b => b
  | PInt z => negb (Z.eqb z 0)
  | PFloat (Fin q) => negb (Qeq_bool q 0)
  | PFloat _ => true
  | PStr s => negb (String.eqb s "")
  | PList xs => match xs with [] => false | _ => true end
  | PDict kvs => match kvs with [] => false | _ => true end
  | PObj _ (Some O) _ _ => false
  | PObj _ _ _ _ => true
  end.

(** numeric value of an [int], [bool] or [float] *)
Definition py_num (o : pyval) : option flt :=
  match o with
  | PBool b => Some (Fin (if b then 1 else 0)%Q)
  | PInt z => Some (Fin (inject_Z z))
  | PFloat x => Some x
  | _ => None
  end.

(** integer value of an [int] or [bool] *)
Definition py_intval (o : pyval) : option Z :=
  match o with
  | PBool b => Some (if b then 1 else 0)%Z
  | PInt z => Some z
  | _ => None
  end.

(** [a > b]; values other than numbers and strings are not ordered here *)
Definition py_gt (a b : pyval) : res bool :=
  match a, b with
  | PStr x, PStr y => Ok (match String.compare x y with Gt => true | _ => false end)
  | _, _ =>
      match py_num a, py_num b with
      | Some x, Some y => Ok (flt_lt y x)
      | _, _ => Raise TypeError
      end
  end.

(** [max(a, b)]: keeps the first argument unless the second is larger *)
Definition py_max (a b : pyval) : res pyval :=
  let* g := py_gt b a in Ok (if g then b else a).

(** [a + b] on numbers, a step of [sum()]; an [int] operand is taken
    exactly *)
Definition py_add (a b : pyval) : res pyval :=
  match a, b with
  | PFloat _, _ | _, PFloat _ =>
      match py_num a, py_num b with
      | Some x, Some y => Ok (PFloat (flt_add x y))
      | _, _ => Raise TypeError
      end
  | _, _ =>
      match py_intval a, py_intval b with
      | Some x, Some y => Ok (PInt (x + y))
      | _, _ => Raise TypeError
      end
  end.

(* ------------------------------------------------------------------ *)
(** ** Characters and string conversions *)

Definition code (c : ascii) : nat := nat_of_ascii c.

Definition is_digit (c : ascii) : bool := (48 <=? code c)%nat && (code c <=? 57)%nat.

(** [str.isspace()] on 8-bit characters, also what [\s] matches *)
Definition is_space (c : ascii) : bool :=
  ((9 <=? code c)%nat && (code c <=? 13)%nat)
  || ((28 <=? code c)%nat && (code c <=? 32)%nat)
  || (code c =? 133)%nat || (code c =? 160)%nat.

Definition lower_char (c : ascii) : ascii :=
  if (65 <=? code c)%nat && (code c <=? 90)%nat then ascii_of_nat (code c + 32) else c.

(** [s.lower()]; only ASCII letters are lowered (a lowered Latin-1
    letter is never an ASCII one, which is all the callers test) *)
Definition py_lower (s : list ascii) : list ascii := map lower_char s.

Definition digit_val (c : ascii) : Z := Z.of_nat (code c - 48).

Fixpoint drop_ws (l : list ascii) : list ascii :=
  match l with
  | c :: t => if is_space c then drop_ws t else l
  | [] => []
  end.

(** [s.strip()] *)
Definition strip (l : list ascii) : list ascii := rev (drop_ws (rev (drop_ws l))).

(** a run of digits, single underscores allowed between digits; returns its
    value and its number of digits *)
Fixpoint digit_group (acc : Z) (n : nat) (prev : bool) (l : list ascii)
  : option (Z * nat) :=
  match l with
  | [] => if prev then Some (acc, n) else None
  | c :: t =>
      if is_digit c then digit_group (acc * 10 + digit_val c) (S n) true t
      else if Ascii.eqb c "_"%char && prev then digit_group acc n false t
      else None
  end.

Definition split_sign (l : list ascii) : Z * list ascii :=
  match l with
  | c :: t =>
      if Ascii.eqb c "-"%char then (-1, t)
      else if Ascii.eqb c "+"%char then (1, t)
      else (1, l)
  | [] => (1, [])
  end.

(** [int(s)] for a string *)
Definition parse_int_str (s : string) : option Z :=
  let (sg, body) := split_sign (strip (list_ascii_of_string s)) in
  match digit_group 0 0 false body with
  | Some (v, _) => Some (sg * v)
  | None => None
  end.

Fixpoint span (p : ascii -> bool) (l : list ascii) : list ascii * list ascii :=
  match l with
  | c :: t => if p c then let (a, b) := span p t in (c :: a, b) else ([], l)
  | [] => ([], [])
  end.

Definition digit_or_us (c : ascii) : bool := is_digit c || Ascii.eqb c "_"%char.

Definition opt_group (l : list ascii) : option (Z * nat) :=
  match l with [] => Some (0, O) | _ => digit_group 0 0 false l end.

Definition pow10 (n : nat) : Z := 10 ^ Z.of_nat n.

(** [float(s)] for a string: after [strip] and an optional sign, the
    spellings [inf], [infinity] and [nan] in any case, or a decimal literal
    with optional fraction and exponent, rounded to binary64 *)
Definition parse_float_str (s : string) : option flt :=
  let (sg, body) := split_sign (strip (list_ascii_of_string s)) in
  let word := string_of_list_ascii (py_lower body) in
  if String.eqb word "inf" || String.eqb word "infinity" then Some (Inf (sg =? -1))
  else if String.eqb word "nan" then Some NaN
  else
  let (ip, r1) := span digit_or_us body in
  let (fp, r2) :=
    match r1 with
    | c :: t => if Ascii.eqb c "."%char then span digit_or_us t else ([], r1)
    | [] => ([], [])
    end in
  let ex :=
    match r2 with
    | [] => Some 0
    | c :: t =>
        if Ascii.eqb (lower_char c) "e"%char then
          let (esg, eb) := split_sign t in
          match digit_group 0 0 false eb with
          | Some (v, _) => Some (esg * v)
          | None => None
          end
        else None
    end in
  match opt_group ip, opt_group fp, ex with
  | Some (iv, ni), Some (fv, nf), Some e =>
      if (ni + nf =? 0)%nat then None
      else
        let m := (inject_Z (sg * (iv * pow10 nf + fv)) / inject_Z (pow10 nf))%Q in
        Some (round64 (if 0 <=? e then m * inject_Z (10 ^ e) else m / inject_Z (10 ^ (- e)))%Q)
  | _, _, _ => None
  end.

(** [int(o)]; [int()] of an infinity raises [OverflowError], of NaN
    [ValueError] *)
Definition py_int (o : pyval) : res Z :=
  match o with
  | PBool b => Ok (if b then 1 else 0)
  | PInt z => Ok z
  | PFloat (Fin q) => Ok (Z.quot (Qnum q) (Zpos (Qden q)))
  | PFloat (Inf _) => Raise OverflowError
  | PFloat NaN => Raise ValueError
  | PStr s => match parse_int_str s with Some z => Ok z | None => Raise ValueError end
  | _ => Raise TypeError
  end.

(** [float(o)]; an [int] too large for binary64 raises [OverflowError] *)
Definition py_float (o : pyval) : res flt :=
  match o with
  | PBool b => Ok (Fin (if b then 1 else 0)%Q)
  | PInt z => match round64 (inject_Z z) with Inf _ => Raise OverflowError | x => Ok x end
  | PFloat x => Ok x
  | PStr s => match parse_float_str s with Some x => Ok x | None => Raise ValueError end
  | _ => Raise TypeError
  end.

Fixpoint is_prefix (p s : list ascii) : bool :=
  match p, s with
  | [], _ => true
  | c :: p', d :: s' => Ascii.eqb c d && is_prefix p' s'
  | _ :: _, [] => false
  end.

(** [p in s] for strings *)
Fixpoint contains (p s : list ascii) : bool :=
  is_prefix p s || match s with [] => false | _ :: t => contains p t end.

(* ------------------------------------------------------------------ *)
(** ** [repr()] and [str()] *)

(** [str()] of an int: its decimal digits; an int of more than 4300
    digits is refused with [ValueError] *)
Definition int_str (z : Z) : res string :=
  if Z.abs z <? 10 ^ 4300 then Ok (zstr z) else Raise ValueError.

Definition hex_digit (n : nat) : ascii :=
  ascii_of_nat (if (n <? 10)%nat then 48 + n else 87 + n)%nat.

(** the characters [repr()] shows as they are: printable ASCII, and the
    printable Latin-1 characters above 160 except the soft hyphen *)
Definition printable (n : nat) : bool :=
  (((32 <=? n) && (n <=? 126)) || ((161 <=? n) && negb (n =? 173)))%nat.

Definition backslash : ascii := ascii_of_nat 92.

(** one character of a string's [repr()] between the quotes [q] *)
Definition repr_char (q c : ascii) : string :=
  let n := code c in
  if Ascii.eqb c q || (n =? 92)%nat then String backslash (String c EmptyString)
  else if (n =? 9)%nat then String backslash (String "t"%char EmptyString)
  else if (n =? 10)%nat then String backslash (String "n"%char EmptyString)
  else if (n =? 13)%nat then String backslash (String "r"%char EmptyString)
  else if printable n then String c EmptyString
  else String backslash (String "x"%char
         (String (hex_digit (n / 16)) (String (hex_digit (n mod 16)) EmptyString))).

(** [repr()] of a string: in single quotes, or in double quotes when it
    holds a single quote and no double quote *)
Definition repr_str (s : string) : string :=
  let l := list_ascii_of_string s in
  let sq := existsb (fun c => (code c =? 39)%nat) l in
  let dq := existsb (fun c => (code c =? 34)%nat) l in
  let q := ascii_of_nat (if sq && negb dq then 34 else 39) in
  String q (String.concat EmptyString (map (repr_char q) l) ++ String q EmptyString).

(** [repr(o)]; a dict shows its live bindings *)
Fixpoint py_repr (o : pyval) : res string :=
  match o with
  | PNone => Ok "None"
  | PBool b => Ok (if b then "True" else "False")
  | PInt z => int_str z
  | PFloat x => Ok (float_repr x)
  | PStr s => Ok (repr_str s)
  | PList xs =>
      let* parts :=
        (fix reprs (l : list pyval) : res (list string) :=
           match l with
           | [] => Ok []
           | x :: t => let* r := py_repr x in let* rs := reprs t in Ok (r :: rs)
           end) xs in
      Ok ("[" ++ String.concat ", " parts ++ "]")
  | PDict kvs =>
      let* parts :=
        (fix items (l : list (string * pyval)) (seen : list string) : res (list string) :=
           match l with
           | [] => Ok []
           | (k, v) :: t =>
               if existsb (String.eqb k) seen then items t seen
               else
                 let* r := py_repr v in
                 let* rs := items t (k :: seen) in
                 Ok ((repr_str k ++ ": " ++ r) :: rs)
           end) kvs [] in
      Ok ("{" ++ String.concat ", " parts ++ "}")
  | PObj _ _ _ r => r
  end%string.

(** [str(o)] *)
Definition py_str (o : pyval) : res string :=
  match o with
  | PStr s => Ok s
  | PObj _ _ s _ => s
  | _ => py_repr o
  end.

(* ------------------------------------------------------------------ *)
(** ** [re.findall] for the lead patterns (flag [re.IGNORECASE])

    The patterns of [AnalyticsParser.lead_patterns] are sequences of
    single-character classes, each with a greedy quantifier; the one group
    [(\d+)] is [GroupPlus CDigit]. *)

Inductive cls : Type :=
| CLit (c : ascii)
| CDigit
| CSpace.

Definition cls_match (k : cls) (c : ascii) : bool :=
  match k with
  | CLit l => Ascii.eqb (lower_char c) (lower_char l)
  | CDigit => is_digit c
  | CSpace => is_space c
  end.

Inductive item : Type :=
| Once (k : cls)
| Opt (k : cls)
| Plus (k : cls)
| Star (k : cls)
| GroupPlus (k : cls).

Definition item_cls (it : item) : cls :=
  match it with Once k | Opt k | Plus k | Star k | GroupPlus k => k end.

Definition item_min (it : item) : nat :=
  match it with Once _ | Plus _ | GroupPlus _ => 1 | Opt _ | Star _ => 0 end%nat.

Definition is_group (it : item) : bool :=
  match it with GroupPlus _ => true | _ => false end.

Fixpoint run_len (k : cls) (s : list ascii) : nat :=
  match s with
  | c :: t => if cls_match k c then S (run_len k t) else O
  | [] => O
  end.

Fixpoint down_from (n : nat) : list nat :=
  match n with O => [O] | S m => n :: down_from m end.

Fixpoint find_map {A B : Type} (f : A -> option B) (l : list A) : option B :=
  match l with
  | [] => None
  | x :: t => match f x with Some b => Some b | None => find_map f t end
  end.

(** match anchored at the start of [s]; greedy quantifiers try the longest
    repetition first and backtrack; returns the captured groups *)
Fixpoint rx_match (p : list item) (s : list ascii) : option (list (list ascii)) :=
  match p with
  | [] => Some []
  | it :: p' =>
      let run := run_len (item_cls it) s in
      let mx := match it with Once _ | Opt _ => Nat.min 1 run | _ => run end in
      find_map
        (fun n =>
           match rx_match p' (skipn n s) with
           | Some gs => Some (if is_group it then firstn n s :: gs else gs)
           | None => None
           end)
        (filter (fun n => Nat.leb (item_min it) n) (down_from mx))
  end.

(** the groups of the leftmost match: the first element of [re.findall] *)
Fixpoint rx_search (p : list item) (s : list ascii) : option (list (list ascii)) :=
  match rx_match p s with
  | Some g => Some g
  | None => match s with [] => None | _ :: t => rx_search p t end
  end.

Definition lits (s : string) : list item :=
  map (fun c => Once (CLit c)) (list_ascii_of_string s).

Definition s_opt : list item := [Opt (CLit "s"%char)].

(** [AnalyticsParser.__init__]: [self.lead_patterns] *)
Definition lead_patterns : list (list item) :=
  [ (* (\d+)\s+leads?\s+found *)
    [GroupPlus CDigit; Plus CSpace] ++ lits "lead" ++ s_opt ++ [Plus CSpace] ++ lits "found";
    (* found\s+(\d+)\s+leads? *)
    lits "found" ++ [Plus CSpace; GroupPlus CDigit; Plus CSpace] ++ lits "lead" ++ s_opt;
    (* (\d+)\s+contacts?\s+found *)
    [GroupPlus CDigit; Plus CSpace] ++ lits "contact" ++ s_opt ++ [Plus CSpace] ++ lits "found";
    (* found\s+(\d+)\s+contacts? *)
    lits "found" ++ [Plus CSpace; GroupPlus CDigit; Plus CSpace] ++ lits "contact" ++ s_opt;
    (* total\s+leads?:\s*(\d+) *)
    lits "total" ++ [Plus CSpace] ++ lits "lead" ++ s_opt
      ++ [Once (CLit ":"%char); Star CSpace; GroupPlus CDigit];
    (* leads?:\s*(\d+) *)
    lits "lead" ++ s_opt ++ [Once (CLit ":"%char); Star CSpace; GroupPlus CDigit];
    (* contacts?:\s*(\d+) *)
    lits "contact" ++ s_opt ++ [Once (CLit ":"%char); Star CSpace; GroupPlus CDigit] ].

(* ------------------------------------------------------------------ *)
(** ** [AnalyticsParser] *)

(** the dict a shape helper returns: [leads_found], and [execution_time]
    when it sets one *)
Record partial : Type := mkPartial { p_leads : Z; p_exec : option flt }.

(** the analytics dict built by [parse_agent_output] *)
Record parse_result : Type := mkResult {
  r_leads_found : Z;
  r_execution_time : flt;
  r_success : bool;
  r_error_message : option string }.

(** the [for pattern in self.lead_patterns] loop of [_parse_text_output] *)
Fixpoint scan_patterns (ps : list (list item)) (t : list ascii) : Z :=
  match ps with
  | [] => 0
  | p :: ps' =>
      match rx_search p t with
      | Some (g :: _) =>
          match py_int (PStr (string_of_list_ascii g)) with
          | Ok n => n
          | Raise _ => scan_patterns ps' t
          end
      | _ => scan_patterns ps' t
      end
  end.

Definition parse_text_output (text : string) : partial :=
  mkPartial (scan_patterns lead_patterns (list_ascii_of_string text)) None.

Definition parse_dict_output (data : list (string * pyval)) : res partial :=
  let* lf :=
    match lookup "leads_found" data with
    | Some v => py_int v
    | None =>
        match lookup "leads" data with
        | Some (PList xs) => Ok (Z.of_nat (length xs))
        | Some (PDict inner) =>
            match lookup "leads" inner with
            | Some v => let* n := py_len v in Ok (Z.of_nat n)
            | None => Ok 0
            end
        | _ => Ok 0
        end
    end in
  let* et :=
    match lookup "execution_time" data with
    | Some v => let* t := py_float v in Ok (Some t)
    | None => Ok None
    end in
  Ok (mkPartial lf et).

Definition parse_list_output (data : list pyval) : partial :=
  mkPartial (if (0 <? length data)%nat then Z.of_nat (length data) else 0) None.

Definition parse_lead_object (obj : pyval) : res partial :=
  if hasattr obj "leads" then
    let* l := getattr obj "leads" in
    if sized l then let* n := py_len l in Ok (mkPartial (Z.of_nat n) None)
    else Ok (mkPartial 0 None)
  else Ok (mkPartial 0 None).

(** the [isinstance] dispatch; [None] is the unknown-type branch that only
    logs a warning *)
Definition parse_shape (output : pyval) : res (option partial) :=
  match output with
  | PStr s => Ok (Some (parse_text_output s))
  | PDict kvs => let* p := parse_dict_output kvs in Ok (Some p)
  | PList xs => Ok (Some (parse_list_output xs))
  | _ =>
      if hasattr output "leads" then let* p := parse_lead_object output in Ok (Some p)
      else Ok None
  end.

Definition default_result : parse_result := mkResult 0 (Fin 0) true None.

(** [analytics.update(partial)] *)
Definition apply_partial (a : parse_result) (p : partial) : parse_result :=
  mkResult (p_leads p)
    (match p_exec p with Some t => t | None => r_execution_time a end)
    (r_success a) (r_error_message a).

Definition parse_agent_output (agent_name : string) (output : pyval) : res parse_result :=
  let analytics := default_result in
  (* try: ... except Exception as e: ... *)
  match parse_shape output with
  | Ok (Some p) => Ok (apply_partial analytics p)
  | Ok None => Ok analytics
  | Raise e =>
      Ok (mkResult (r_leads_found analytics) (r_execution_time analytics)
             false (Some (exn_str e)))
  end.

(* ------------------------------------------------------------------ *)
(** ** [WorkflowAnalytics] and [create_workflow_analytics] *)

(** [WorkflowAnalytics]; [created_at] is not modelled.  Attribute
    assignment is not validated by pydantic, so [leads_found] holds any
    value once assigned. *)
Record workflow_analytics : Type := mkWA {
  wa_leads_found : pyval;
  wa_execution_time : Q;
  wa_evaluation_score : option Q;
  wa_success_rate : Q }.

Definition wa_default : workflow_analytics := mkWA (PInt 0) 0 None 0.

Definition set_leads (a : workflow_analytics) (v : pyval) : workflow_analytics :=
  mkWA v (wa_execution_time a) (wa_evaluation_score a) (wa_success_rate a).

(** pydantic validation of an [int] field *)
Definition validate_int (v : pyval) : res Z :=
  match v with
  | PInt z => Ok z
  | PBool b => Ok (if b then 1 else 0)
  | PFloat (Fin q) =>
      if Z.eqb (Z.rem (Qnum q) (Zpos (Qden q))) 0
      then Ok (Z.quot (Qnum q) (Zpos (Qden q))) else Raise ValidationError
  | _ => Raise ValidationError
  end.

(** the dict [parse_agent_output] returns *)
Definition result_to_dict (r : parse_result) : pyval :=
  PDict [("leads_found"%string, PInt (r_leads_found r));
         ("execution_time"%string, PFloat (r_execution_time r));
         ("success"%string, PBool (r_success r));
         ("error_message"%string,
            match r_error_message r with Some s => PStr s | None => PNone end)].

(** [sum(result.get('leads_found', 0) for result in agent_results)] *)
Fixpoint sum_leads (acc : pyval) (rs : list pyval) : res pyval :=
  match rs with
  | [] => Ok acc
  | r :: t =>
      let* v := call_get r "leads_found" (PInt 0) in
      let* acc' := py_add acc v in
      sum_leads acc' t
  end.

(** [sum(1 for result in agent_results if result.get('success', True))] *)
Fixpoint count_success (rs : list pyval) : res nat :=
  match rs with
  | [] => Ok O
  | r :: t =>
      let* v := call_get r "success" (PBool true) in
      let* n := count_success t in
      Ok (if truthy v then S n else n)
  end.

Definition create_workflow_analytics (agent_results : list pyval) (execution_time : Q)
  : res workflow_analytics :=
  let* total_leads := sum_leads (PInt 0) agent_results in
  let* success_count := count_success agent_results in
  let total_agents := length agent_results in
  let success_rate :=
    if (0 <? total_agents)%nat
    then (inject_Z (Z.of_nat success_count) / inject_Z (Z.of_nat total_agents))%Q
    else 0%Q in
  let* lf := validate_int total_leads in
  Ok (mkWA (PInt lf) execution_time None success_rate).







(* ------------------------------------------------------------------ *)
(** ** [AgentExecutionRecord] *)

Record agent_execution_record : Type := mkRecord {
  rec_agent_name : string;
  rec_task_name : string;
  rec_output_data : pyval;
  rec_success : bool;
  rec_error_message : option string;
  rec_execution_time : option flt }.

(** pydantic validation of an [Optional[float]] field (lax mode, as
    [float()]) *)
Definition validate_opt_float (v : pyval) : res (option flt) :=
  match v with
  | PNone => Ok None
  | _ => match py_float v with Ok x => Ok (Some x) | Raise _ => Raise ValidationError end
  end.

(** the constructor [AgentExecutionRecord(...)] *)
Definition make_record (agent_name task_name : string) (output : pyval) (success : bool)
  (error_message : option string) (execution_time : pyval) : res agent_execution_record :=
  let* et := validate_opt_float execution_time in
  Ok (mkRecord agent_name task_name output success error_message et).

Definition extract_analytics (r : agent_execution_record) : res workflow_analytics :=
  let analytics := wa_default in
  if negb (rec_success r) || negb (truthy (rec_output_data r)) then Ok analytics
  else
    match rec_output_data r with
    | PStr s =>
        let output_lower := py_lower (list_ascii_of_string s) in
        if contains (list_ascii_of_string "lead") output_lower
           || contains (list_ascii_of_string "contact") output_lower
        then Ok (set_leads analytics (PInt 1))
        else Ok analytics
    | PDict kvs => Ok (set_leads analytics (dict_get kvs "leads_found" (PInt 0)))
    | PList xs =>
        if (0 <? length xs)%nat then Ok (set_leads analytics (PInt (Z.of_nat (length xs))))
        else Ok analytics
    | o =>
        if hasattr o "leads" && sized o then
          let* l := getattr o "leads" in
          let* n := py_len l in
          Ok (set_leads analytics (PInt (Z.of_nat n)))
        else Ok analytics
    end.

(* ------------------------------------------------------------------ *)
(** ** [WorkflowStateManager]

    Each mutator runs under [self._lock] and receives the clock reading
    [now] it takes with [time.time()].  The lock is a [threading.Lock],
    which is not reentrant. *)

(** [TASK_NAMES] *)
Definition TASK_NAMES : list (string * string) :=
  [("scrape_leads"%string, "Lead Scraping"%string);
   ("find_lead_emails"%string, "Email Finding"%string);
   ("validate_lead_emails"%string, "Email Validation"%string);
   ("save_data"%string, "Data Storage"%string)].

(** [self._task_order = list(TASK_NAMES.keys())] *)
Definition task_order : list string := map fst TASK_NAMES.

(** [TASK_NAMES.get(k, d)] *)
Fixpoint str_get (m : list (string * string)) (k d : string) : string :=
  match m with
  | [] => d
  | (k', v) :: t => if String.eqb k k' then v else str_get t k d
  end.

(** [l.index(x)] when [x in l] *)
Fixpoint index_of (x : string) (l : list string) : option nat :=
  match l with
  | [] => None
  | y :: t => if String.eqb x y then Some O else option_map S (index_of x t)
  end.

Definition str_mem (x : string) (l : list string) : bool :=
  existsb (String.eqb x) l.

Record progress : Type := mkProgress {
  completed_tasks : list string;
  total_tasks : Z;
  current_step : Z }.

(** [state['timing']]; its ['estimated_completion'] entry stays [None] and is
    recomputed by [get_state] *)
Record timing : Type := mkTiming {
  start_time : option Q;
  current_task_start : option Q }.

(** [self._state]; the ['evaluation'] entry written by the evaluator path
    is not modelled *)
Record wf_state : Type := mkState {
  workflow_status : string;
  current_agent : pyval;
  current_task : option string;
  current_tool : option string;
  progress_of : progress;
  analytics : list (string * pyval);
  timing_of : timing;
  errors : list string;
  last_update : Q }.

Record manager : Type := mkManager {
  state : wf_state;
  (** [self._analytics] *)
  model : workflow_analytics }.

Definition set_last_update (s : wf_state) (t : Q) : wf_state :=
  mkState (workflow_status s) (current_agent s) (current_task s) (current_tool s)
    (progress_of s) (analytics s) (timing_of s) (errors s) t.

Definition set_status (s : wf_state) (v : string) : wf_state :=
  mkState v (current_agent s) (current_task s) (current_tool s)
    (progress_of s) (analytics s) (timing_of s) (errors s) (last_update s).

Definition set_agent (s : wf_state) (v : pyval) : wf_state :=
  mkState (workflow_status s) v (current_task s) (current_tool s)
    (progress_of s) (analytics s) (timing_of s) (errors s) (last_update s).

Definition set_task (s : wf_state) (v : option string) : wf_state :=
  mkState (workflow_status s) (current_agent s) v (current_tool s)
    (progress_of s) (analytics s) (timing_of s) (errors s) (last_update s).

Definition set_tool (s : wf_state) (v : option string) : wf_state :=
  mkState (workflow_status s) (current_agent s) (current_task s) v
    (progress_of s) (analytics s) (timing_of s) (errors s) (last_update s).

Definition set_progress (s : wf_state) (v : progress) : wf_state :=
  mkState (workflow_status s) (current_agent s) (current_task s) (current_tool s)
    v (analytics s) (timing_of s) (errors s) (last_update s).

Definition set_analytics (s : wf_state) (v : list (string * pyval)) : wf_state :=
  mkState (workflow_status s) (current_agent s) (current_task s) (current_tool s)
    (progress_of s) v (timing_of s) (errors s) (last_update s).

Definition set_timing (s : wf_state) (v : timing) : wf_state :=
  mkState (workflow_status s) (current_agent s) (current_task s) (current_tool s)
    (progress_of s) (analytics s) v (errors s) (last_update s).

Definition set_errors (s : wf_state) (v : list string) : wf_state :=
  mkState (workflow_status s) (current_agent s) (current_task s) (current_tool s)
    (progress_of s) (analytics s) (timing_of s) v (last_update s).

Definition initialize_state (now : Q) : wf_state :=
  mkState "idle" PNone None None (mkProgress [] 4 0)
    [("leads_found"%string, PInt 0)] (mkTiming None None) [] now.

(** [WorkflowStateManager()] *)
Definition new_manager (now : Q) : manager := mkManager (initialize_state now) wa_default.

(** [reset_state]: [self._analytics] is kept *)
Definition reset_state (now : Q) (m : manager) : manager :=
  mkManager (initialize_state now) (model m).

Definition on_state (f : wf_state -> wf_state) (now : Q) (m : manager) : manager :=
  mkManager (set_last_update (f (state m)) now) (model m).

Definition update_workflow_status (status : string) : Q -> manager -> manager :=
  on_state (fun s => set_status s status).

Definition update_current_agent (agent_role : pyval) : Q -> manager -> manager :=
  on_state (fun s => set_agent s agent_role).

Definition update_current_tool (tool_name : option string) : Q -> manager -> manager :=
  on_state (fun s => set_tool s tool_name).

Definition update_current_task (task_name : option string) (now : Q) (m : manager) : manager :=
  on_state
    (fun s =>
       match task_name with
       | Some n =>
           if negb (String.eqb n "") then
             let s1 := set_task s (Some (str_get TASK_NAMES n n)) in
             let s2 := set_timing s1 (mkTiming (start_time (timing_of s1)) (Some now)) in
             match index_of n task_order with
             | Some i =>
                 let p := progress_of s2 in
                 set_progress s2
                   (mkProgress (completed_tasks p) (total_tasks p) (Z.of_nat i + 1))
             | None => s2
             end
           else set_task s None
       | None => set_task s None
       end) now m.

Definition add_completed_task (task_name : string) : Q -> manager -> manager :=
  on_state
    (fun s =>
       let completed_task := str_get TASK_NAMES task_name task_name in
       let p := progress_of s in
       if str_mem completed_task (completed_tasks p) then s
       else set_progress s
              (mkProgress (completed_tasks p ++ [completed_task]) (total_tasks p)
                 (current_step p))).

Definition add_error (error : string) : Q -> manager -> manager :=
  on_state (fun s => set_errors s (errors s ++ [error])).

(** [d[k] = v] for a key already in [d] *)
Fixpoint replace_key (k : string) (v : pyval) (d : list (string * pyval))
  : list (string * pyval) :=
  match d with
  | [] => []
  | (k', v') :: t => if String.eqb k k' then (k', v) :: t else (k', v') :: replace_key k v t
  end.

Fixpoint merge_known (updates d : list (string * pyval)) : list (string * pyval) :=
  match updates with
  | [] => d
  | (k, v) :: t => merge_known t (if has_key k d then replace_key k v d else d)
  end.

Definition update_analytics (analytics_updates : list (string * pyval))
  : Q -> manager -> manager :=
  on_state (fun s => set_analytics s (merge_known analytics_updates (analytics s))).

Definition set_start_time (now : Q) (m : manager) : manager :=
  on_state (fun s => set_timing s (mkTiming (Some now) (current_task_start (timing_of s))))
    now m.

(** outcome of a call that may block forever *)
Inductive call_result : Type :=
| Done (m : manager)
| Deadlock.

(** [process_agent_output]: the [try] block, then the [except] fallback.
    The fallback calls [self.update_analytics] while [self._lock] is held;
    [update_analytics] acquires the same non-reentrant lock, so that call
    never returns. *)
Definition process_agent_output (agent_name task_name : string) (output : pyval)
  (success : bool) (error_message : option string) (execution_time : pyval)
  (now : Q) (m : manager) : call_result :=
  match
    (let* agent_output :=
       make_record agent_name task_name output success error_message execution_time in
     let* new_analytics := extract_analytics agent_output in
     py_max (wa_leads_found (model m)) (wa_leads_found new_analytics))
  with
  | Ok v =>
      (* self._analytics.leads_found = v; _sync_analytics_to_state; last_update *)
      Done (mkManager
              (set_last_update (set_analytics (state m) [("leads_found"%string, v)]) now)
              (set_leads (model m) v))
  | Raise _ =>
      match output with
      | PDict _ => Deadlock
      | _ => Done m
      end
  end.

(** [round(x, 1)]: to one decimal place, ties to even *)
Definition round1 (q : Q) : Q := (inject_Z (round_half_even (q * 10)) / 10)%Q.

(** truthiness of an optional timestamp *)
Definition set_and_truthy (t : option Q) : bool :=
  match t with Some q => negb (Qeq_bool q 0) | None => false end.

(** the dict [get_state] returns: the state's entries, with the computed
    [progress.percentage] and [timing.estimated_completion] *)
Record snapshot : Type := mkSnapshot {
  snap_state : wf_state;
  percentage : Q;
  estimated_completion : option Q }.

(** [get_state]; [t_elapsed] and [t_now] are the readings of the two
    [time.time()] calls *)
Definition get_state (t_elapsed t_now : Q) (m : manager) : res snapshot :=
  let s := state m in
  let p := progress_of s in
  let* progress_percentage :=
    if Z.eqb (total_tasks p) 0 then Raise ZeroDivisionError
    else Ok (inject_Z (Z.of_nat (length (completed_tasks p))) / inject_Z (total_tasks p) * 100)%Q in
  let estimated :=
    if set_and_truthy (start_time (timing_of s))
       && set_and_truthy (current_task_start (timing_of s))
       && (0 <? current_step p)
    then
      match start_time (timing_of s) with
      | Some st =>
          let elapsed := (t_elapsed - st)%Q in
          let avg_time_per_task := (elapsed / inject_Z (current_step p))%Q in
          let remaining_tasks := total_tasks p - current_step p in
          Some (t_now + avg_time_per_task * inject_Z remaining_tasks)%Q
      | None => None
      end
    else None in
  Ok (mkSnapshot s (round1 progress_percentage) estimated).

(** the dict [get_analytics_summary] returns *)
Record analytics_summary : Type := mkSummary {
  summary_leads_found : pyval;
  summary_execution_time : Q;
  summary_success_rate : Q;
  summary_evaluation_score : option Q }.

(** [get_analytics_summary]: the fields of [self._analytics] *)
Definition get_analytics_summary (m : manager) : analytics_summary :=
  mkSummary (wa_leads_found (model m)) (wa_execution_time (model m))
    (wa_success_rate (model m)) (wa_evaluation_score (model m)).

(** the operations of the manager, for runs of it *)
Inductive sm_op : Type :=
| OpReset
| OpStatus (status : string)
| OpAgent (agent_role : pyval)
| OpTask (task_name : option string)
| OpTool (tool_name : option string)
| OpCompleted (task_name : string)
| OpError (error : string)
| OpAnalytics (updates : list (string * pyval))
| OpProcess (agent_name task_name : string) (output : pyval) (success : bool)
    (error_message : option string) (execution_time : pyval)
| OpStartTime.

Definition sm_step (op : sm_op) (now : Q) (m : manager) : call_result :=
  match op with
  | OpReset => Done (reset_state now m)
  | OpStatus st => Done (update_workflow_status st now m)
  | OpAgent a => Done (update_current_agent a now m)
  | OpTask t => Done (update_current_task t now m)
  | OpTool t => Done (update_current_tool t now m)
  | OpCompleted n => Done (add_completed_task n now m)
  | OpError e => Done (add_error e now m)
  | OpAnalytics u => Done (update_analytics u now m)
  | OpProcess a t o sc em et => process_agent_output a t o sc em et now m
  | OpStartTime => Done (set_start_time now m)
  end.

(** a sequence of operations, each with its clock reading *)
Fixpoint run (ops : list (sm_op * Q)) (m : manager) : call_result :=
  match ops with
  | [] => Done m
  | (op, now) :: t =>
      match sm_step op now m with
      | Done m' => run t m'
      | Deadlock => Deadlock
      end
  end.

(* ------------------------------------------------------------------ *)
(** ** [EventHandlers]

    A handler runs in [hm]: it reads and updates the handler object (its
    state manager, its timing dicts, the metrics it emits), and it returns,
    raises (keeping the effects done before the exception) or hangs.  All
    [time.time()] calls of one handler call read the same [clock]. *)

(** what [record_agent_execution] and [record_task_execution] emit;
    prometheus_client converts label values with [str()] and never raises *)
Inductive metric : Type :=
| AgentMetric (agent : pyval) (duration : Q) (error : bool)
| TaskMetric (task : string) (duration : Q) (error : bool).

Record handlers : Type := mkHandlers {
  state_manager : manager;
  agent_start_times : list (pyval * Q);
  task_start_times : list (pyval * Q);
  metrics : list metric;
  clock : Q }.

Inductive outcome (A : Type) : Type :=
| Returned (a : A) (h : handlers)
| Raised (e : exn) (h : handlers)
| Hung.
Arguments Returned {A} a h.
Arguments Raised {A} e h.
Arguments Hung {A}.

Definition hm (A : Type) : Type := handlers -> outcome A.

Definition hret {A : Type} (a : A) : hm A := fun h => Returned a h.

Definition hbind {A B : Type} (m : hm A) (k : A -> hm B) : hm B :=
  fun h =>
    match m h with
    | Returned a h' => k a h'
    | Raised e h' => Raised e h'
    | Hung => Hung
    end.

Notation "x <- m ;; k" := (hbind m (fun x => k))
  (at level 61, m at next level, right associativity).
Notation "m ;; k" := (hbind m (fun _ => k)) (at level 61, right associativity).

Definition hlift {A : Type} (r : res A) : hm A :=
  fun h => match r with Ok a => Returned a h | Raise e => Raised e h end.

Definition now : hm Q := fun h => Returned (clock h) h.

Definition with_manager (h : handlers) (m : manager) : handlers :=
  mkHandlers m (agent_start_times h) (task_start_times h) (metrics h) (clock h).

(** a call [self.state_manager.op(...)] of a mutator that always returns *)
Definition sm (op : Q -> manager -> manager) : hm unit :=
  fun h => Returned tt (with_manager h (op (clock h) (state_manager h))).

(** [self.state_manager.process_agent_output(...)] *)
Definition sm_process (agent_name task_name : string) (output : pyval) (success : bool)
  (execution_time : pyval) : hm unit :=
  fun h =>
    match process_agent_output agent_name task_name output success None execution_time
            (clock h) (state_manager h) with
    | Done m => Returned tt (with_manager h m)
    | Deadlock => Hung
    end.

Definition emit (x : metric) : hm unit :=
  fun h => Returned tt (mkHandlers (state_manager h) (agent_start_times h)
                          (task_start_times h) (metrics h ++ [x]) (clock h)).

(** dict keys: [hash] and [==]; objects are not modelled with an identity,
    an object key never finds an earlier entry, nor does a NaN key *)
Definition hashable (a : pyval) : bool :=
  match a with PList _ | PDict _ => false | _ => true end.

Definition py_key_eqb (a b : pyval) : bool :=
  match a, b with
  | PNone, PNone => true
  | PStr x, PStr y => String.eqb x y
  | _, _ => match py_num a, py_num b with Some x, Some y => flt_eqb x y | _, _ => false end
  end.

Fixpoint key_set (k : pyval) (v : Q) (d : list (pyval * Q)) : list (pyval * Q) :=
  match d with
  | [] => [(k, v)]
  | (k', v') :: t => if py_key_eqb k k' then (k', v) :: t else (k', v') :: key_set k v t
  end.

Fixpoint key_pop (k : pyval) (d : list (pyval * Q)) : option Q * list (pyval * Q) :=
  match d with
  | [] => (None, [])
  | (k', v') :: t =>
      if py_key_eqb k k' then (Some v', t)
      else let (r, t') := key_pop k t in (r, (k', v') :: t')
  end.

(** [d[k] = v] and [d.pop(k, None)] on the two timing dicts *)
Definition set_agent_time (k : pyval) (v : Q) : hm unit :=
  fun h =>
    if hashable k then
      Returned tt (mkHandlers (state_manager h) (key_set k v (agent_start_times h))
                     (task_start_times h) (metrics h) (clock h))
    else Raised TypeError h.

Definition pop_agent_time (k : pyval) : hm (option Q) :=
  fun h =>
    if hashable k then
      let (r, d) := key_pop k (agent_start_times h) in
      Returned r (mkHandlers (state_manager h) d (task_start_times h) (metrics h) (clock h))
    else Raised TypeError h.

Definition set_task_time (k : pyval) (v : Q) : hm unit :=
  fun h =>
    if hashable k then
      Returned tt (mkHandlers (state_manager h) (agent_start_times h)
                     (key_set k v (task_start_times h)) (metrics h) (clock h))
    else Raised TypeError h.

Definition pop_task_time (k : pyval) : hm (option Q) :=
  fun h =>
    if hashable k then
      let (r, d) := key_pop k (task_start_times h) in
      Returned r (mkHandlers (state_manager h) (agent_start_times h) d (metrics h) (clock h))
    else Raised TypeError h.

(** [time.time() - start_time if start_time else 0.0] *)
Definition duration_since (start : option Q) (t : Q) : Q :=
  if set_and_truthy start then match start with Some s => (t - s)%Q | None => 0%Q end
  else 0%Q.

(** the attributes of an [AnalyticsParser] instance: its methods *)
Definition analytics_parser_methods : list string :=
  ["parse_agent_output"; "_parse_text_output"; "_parse_dict_output";
   "_parse_list_output"; "_parse_lead_object"; "create_workflow_analytics";
   "create_agent_analytics"; "create_task_analytics"]%string.

(** looking up [self.analytics_parser.<name>] *)
Definition parser_attr (name : string) : res unit :=
  if str_mem name analytics_parser_methods then Ok tt else Raise AttributeError.

(** [_extract_task_key]: [task_description.lower()] needs a string *)
Definition extract_task_key (task_description : pyval) : res string :=
  match task_description with
  | PStr s =>
      let l := py_lower (list_ascii_of_string s) in
      let has := fun w => contains (list_ascii_of_string w) l in
      Ok (if has "user input" || has "collect" then "collect_user_input"
          else if has "scrape" || has "lead" then "scrape_leads"
          else if has "validate" || has "email validation" then "validate_lead_emails"
          else if has "save" || has "data" then "save_data"
          else "unknown_task")%string
  | _ => Raise AttributeError
  end.

(** [_extract_agent_name_from_task] *)
Definition extract_agent_name_from_task (task_key : string) : string :=
  str_get [("collect_user_input"%string, "user_input_agent"%string);
           ("scrape_leads"%string, "scraper_agent"%string);
           ("validate_lead_emails"%string, "email_validator_agent"%string);
           ("save_data"%string, "data_analytics_agent"%string)]
    task_key "unknown_agent".

(** [event.get(outer, {}).get(inner, default)] *)
Definition get2 (event : list (string * pyval)) (outer inner : string) (d : pyval)
  : res pyval :=
  call_get (dict_get event outer (PDict [])) inner d.

Definition handle_crew_start (event : list (string * pyval)) : hm unit :=
  sm set_start_time ;;
  sm (update_workflow_status "running") ;;
  sm (update_current_agent PNone) ;;
  sm (update_current_task None) ;;
  sm (update_current_tool None).

(** [handle_crew_end]: when the event has a ['result'], the handler looks up
    [self.analytics_parser.extract_analytics_from_result], which
    [AnalyticsParser] does not define; the call and the evaluation pass
    after it are not reached. *)
Definition handle_crew_end (event : list (string * pyval)) : hm unit :=
  sm (update_workflow_status "completed") ;;
  sm (update_current_agent PNone) ;;
  sm (update_current_task None) ;;
  sm (update_current_tool None) ;;
  if has_key "result" event then
    _ <- hlift (parser_attr "extract_analytics_from_result") ;;
    hret tt
  else hret tt.

Definition handle_agent_start (event : list (string * pyval)) : hm unit :=
  agent_role <- hlift (get2 event "agent" "role" (PStr "Unknown Agent")) ;;
  sm (update_current_agent agent_role) ;;
  sm (update_current_task None) ;;
  sm (update_current_tool None) ;;
  t <- now ;;
  set_agent_time agent_role t.

Definition handle_agent_end (event : list (string * pyval)) : hm unit :=
  agent_role <- hlift (get2 event "agent" "role" (PStr "Unknown Agent")) ;;
  start <- pop_agent_time agent_role ;;
  t <- now ;;
  emit (AgentMetric agent_role (duration_since start t) false).

Definition handle_task_start (event : list (string * pyval)) : hm unit :=
  task_name <- hlift (get2 event "task" "description" (PStr "Unknown Task")) ;;
  task_key <- hlift (extract_task_key task_name) ;;
  sm (update_current_task (Some task_key)) ;;
  t <- now ;;
  set_task_time (PStr task_key) t.

(** [handle_task_end]: with a truthy ['output'] it calls
    [process_agent_output], then looks up
    [self.analytics_parser.parse_task_output], which [AnalyticsParser] does
    not define; the backup [update_analytics] after it is not reached. *)
Definition handle_task_end (event : list (string * pyval)) : hm unit :=
  task_name <- hlift (get2 event "task" "description" (PStr "Unknown Task")) ;;
  task_key <- hlift (extract_task_key task_name) ;;
  sm (add_completed_task task_key) ;;
  start <- pop_task_time (PStr task_key) ;;
  t <- now ;;
  emit (TaskMetric task_key (duration_since start t) false) ;;
  match lookup "output" event with
  | Some output =>
      if truthy output then
        let agent_name := extract_agent_name_from_task task_key in
        let execution_time := dict_get event "execution_time" PNone in
        sm_process agent_name task_key output true execution_time ;;
        _ <- hlift (parser_attr "parse_task_output") ;;
        hret tt
      else hret tt
  | None => hret tt
  end.

Definition handle_error (event : list (string * pyval)) : hm unit :=
  let error_message := dict_get event "error" (PStr "Unknown error occurred") in
  msg <- hlift (py_str error_message) ;;
  sm (add_error msg) ;;
  sm (update_workflow_status "failed") ;;
  agent <- hlift (get2 event "agent" "role" PNone) ;;
  task <- hlift (get2 event "task" "description" PNone) ;;
  (if truthy agent then emit (AgentMetric agent 0 true) else hret tt) ;;
  if truthy task then
    task_key <- hlift (extract_task_key task) ;;
    emit (TaskMetric task_key 0 true)
  else hret tt.

(** the handler methods, each with the event it receives *)
Inductive h_event : Type :=
| EvCrewStart (event : list (string * pyval))
| EvCrewEnd (event : list (string * pyval))
| EvAgentStart (event : list (string * pyval))
| EvAgentEnd (event : list (string * pyval))
| EvTaskStart (event : list (string * pyval))
| EvTaskEnd (event : list (string * pyval))
| EvError (event : list (string * pyval)).

Definition handle (e : h_event) : hm unit :=
  match e with
  | EvCrewStart ev => handle_crew_start ev
  | EvCrewEnd ev => handle_crew_end ev
  | EvAgentStart ev => handle_agent_start ev
  | EvAgentEnd ev => handle_agent_end ev
  | EvTaskStart ev => handle_task_start ev
  | EvTaskEnd ev => handle_task_end ev
  | EvError ev => handle_error ev
  end.

(** the handler object as a later call finds it: [time.time()] reads [t] *)
Definition set_clock (h : handlers) (t : Q) : handlers :=
  mkHandlers (state_manager h) (agent_start_times h) (task_start_times h) (metrics h) t.

(** successive calls on one handler object, each with its clock reading.
    An exception leaves the effects done before it on the object, and the
    next call starts from them; a call that hangs ends the sequence. *)
Fixpoint h_run (evs : list (h_event * Q)) (h : handlers) : option handlers :=
  match evs with
  | [] => Some h
  | (e, t) :: rest =>
      match handle e (set_clock h t) with
      | Returned _ h' => h_run rest h'
      | Raised _ h' => h_run rest h'
      | Hung => None
      end
  end.

(* ------------------------------------------------------------------ *)
(** ** [UIProgressListener] *)

Record ui_progress : Type := mkUiProgress {
  ui_percentage : Z;
  ui_completed_tasks : list string;
  ui_total_tasks : Z }.

Record ui_state : Type := mkUi {
  ui_workflow_status : string;
  ui_current_agent : option string;
  ui_current_task : option string;
  ui_current_tool : option string;
  ui_progress_of : ui_progress;
  ui_leads_found : pyval }.

Definition ui_task_list : list string :=
  ["scrape_leads"; "find_lead_emails"; "validate_lead_emails"; "save_data"]%string.

(** [UIProgressListener.__init__] and [reset] *)
Definition ui_init : ui_state :=
  mkUi "idle" None None None (mkUiProgress 0 [] 0) (PInt 0).

Definition ui_set_progress (s : ui_state) (p : ui_progress) : ui_state :=
  mkUi (ui_workflow_status s) (ui_current_agent s) (ui_current_task s) (ui_current_tool s)
    p (ui_leads_found s).

Definition on_workflow_start (s : ui_state) : ui_state :=
  mkUi "running" (ui_current_agent s) (ui_current_task s) (ui_current_tool s)
    (mkUiProgress 0 [] (Z.of_nat (length ui_task_list))) (ui_leads_found s).

Definition on_workflow_complete (success : bool) (s : ui_state) : ui_state :=
  mkUi (if success then "completed" else "failed") None None None
    (mkUiProgress 100 (ui_completed_tasks (ui_progress_of s)) (ui_total_tasks (ui_progress_of s)))
    (ui_leads_found s).

Definition on_agent_start (agent_name : string) (s : ui_state) : ui_state :=
  mkUi (ui_workflow_status s) (Some agent_name) (ui_current_task s) (ui_current_tool s)
    (ui_progress_of s) (ui_leads_found s).

Definition opt_str_eqb (a : option string) (b : string) : bool :=
  match a with Some x => String.eqb x b | None => false end.

Definition on_agent_complete (agent_name : string) (success : bool) (s : ui_state) : ui_state :=
  mkUi (ui_workflow_status s)
    (if opt_str_eqb (ui_current_agent s) agent_name then None else ui_current_agent s)
    (ui_current_task s) (ui_current_tool s) (ui_progress_of s) (ui_leads_found s).

Definition on_task_start (task_name : string) (s : ui_state) : ui_state :=
  mkUi (ui_workflow_status s) (ui_current_agent s) (Some task_name) (ui_current_tool s)
    (ui_progress_of s) (ui_leads_found s).

(** [completed / total] *)
Definition py_truediv (a b : Z) : res Q :=
  if Z.eqb b 0 then Raise ZeroDivisionError else Ok (inject_Z a / inject_Z b)%Q.

(** [int(x)] of a float: truncation toward zero *)
Definition trunc (q : Q) : Z := Z.quot (Qnum q) (Zpos (Qden q)).

Definition on_task_complete (task_name : string) (success : bool) (s : ui_state)
  : res ui_state :=
  let s1 :=
    mkUi (ui_workflow_status s) (ui_current_agent s)
      (if opt_str_eqb (ui_current_task s) task_name then None else ui_current_task s)
      (ui_current_tool s) (ui_progress_of s) (ui_leads_found s) in
  let p1 := ui_progress_of s1 in
  let s2 :=
    if success && negb (str_mem task_name (ui_completed_tasks p1))
    then ui_set_progress s1
           (mkUiProgress (ui_percentage p1) (ui_completed_tasks p1 ++ [task_name])
              (ui_total_tasks p1))
    else s1 in
  let p2 := ui_progress_of s2 in
  let completed := Z.of_nat (length (ui_completed_tasks p2)) in
  let total := ui_total_tasks p2 in
  if 0 <? total then
    let* r := py_truediv completed total in
    Ok (ui_set_progress s2
          (mkUiProgress (trunc (r * 100)%Q) (ui_completed_tasks p2) (ui_total_tasks p2)))
  else Ok s2.

Definition on_tool_start (tool_name : string) (s : ui_state) : ui_state :=
  mkUi (ui_workflow_status s) (ui_current_agent s) (ui_current_task s) (Some tool_name)
    (ui_progress_of s) (ui_leads_found s).

Definition on_tool_complete (tool_name : string) (success : bool) (s : ui_state) : ui_state :=
  mkUi (ui_workflow_status s) (ui_current_agent s) (ui_current_task s)
    (if opt_str_eqb (ui_current_tool s) tool_name then None else ui_current_tool s)
    (ui_progress_of s) (ui_leads_found s).

Definition ui_update_analytics (analytics_data : list (string * pyval)) (s : ui_state)
  : ui_state :=
  match lookup "leads_found" analytics_data with
  | Some v => mkUi (ui_workflow_status s) (ui_current_agent s) (ui_current_task s)
                (ui_current_tool s) (ui_progress_of s) v
  | None => s
  end.

(* ------------------------------------------------------------------ *)
(** ** [extract_workflow_analytics] and [record_lead_analytics]

    The workflow runner builds a preview of the crew's result with
    [extract_workflow_analytics] and passes its [leads_found] to the
    Prometheus counter [leads_found_total]. *)

(** the task keys [extract_workflow_analytics] looks for *)
Definition preview_task_keys : list string :=
  ["scrape_leads"; "find_lead_emails"; "validate_lead_emails"; "save_data"]%string.

(** the dict [extract_workflow_analytics] returns *)
Record workflow_preview : Type := mkPreview {
  pv_progress : list string;
  pv_leads_found : Z;
  pv_evaluation_score : pyval;
  pv_summary : pyval }.

Definition preview_default : workflow_preview := mkPreview [] 0 PNone (PStr "").

(** [a or b] *)
Definition py_or (a b : pyval) : pyval := if truthy a then a else b.

Definition extract_workflow_analytics (result : pyval) : res workflow_preview :=
  match result with
  | PDict r =>
      let completed := filter (fun key => has_key key r) preview_task_keys in
      let* o := call_get (dict_get r "scrape_leads" (PDict [])) "output" PNone in
      let leads_data := py_or o (dict_get r "leads" PNone) in
      let* leads_found :=
        match leads_data with
        | PDict kvs =>
            match lookup "leads" kvs with
            | Some l => let* n := py_len l in Ok (Z.of_nat n)
            | None => Ok 0
            end
        | PList xs => Ok (Z.of_nat (length xs))
        | _ => Ok 0
        end in
      let* e := call_get (dict_get r "evaluation" (PDict [])) "score" PNone in
      let eval_score := py_or e (dict_get r "evaluation_score" PNone) in
      let* s := call_get (dict_get r "save_data" (PDict [])) "output" PNone in
      let summary := py_or s (dict_get r "summary" PNone) in
      Ok (mkPreview completed leads_found eval_score
            (if truthy summary then summary else PStr ""))
  | _ => Ok preview_default
  end.

(** [record_lead_analytics(found)]: [Counter.inc(found)] on the counter's
    value; prometheus_client refuses a negative amount with [ValueError] *)
Definition record_lead_analytics (found : Z) (value : Q) : res Q :=
  if found <? 0 then Raise ValueError else Ok (value + inject_Z found)%Q.

(* ------------------------------------------------------------------ *)
(** ** Definitions the properties are stated with *)




(** the fallback order of the spec when a mapping has no [leads_found]:
    a [leads] list gives its length, a [leads] mapping with a nested
    [leads] gives that value's length, anything else gives 0 *)
Definition leads_fallback (kvs : list (string * pyval)) (z : Z) : Prop :=
  match lookup "leads" kvs with
  | Some (PList xs) => z = Z.of_nat (length xs)
  | Some (PDict inner) =>
      match lookup "leads" inner with
      | Some v => exists n, py_len v = Ok n /\ z = Z.of_nat n
      | None => z = 0
      end
  | _ => z = 0
  end.


(** the record [process_agent_output] builds for a successful call *)
Definition ok_record (agent_name task_name : string) (output : pyval) : agent_execution_record :=
  mkRecord agent_name task_name output true None None.

(** ['lead' in output_lower or 'contact' in output_lower] *)
Definition mentions_leads (s : string) : bool :=
  let output_lower := py_lower (list_ascii_of_string s) in
  contains (list_ascii_of_string "lead") output_lower
  || contains (list_ascii_of_string "contact") output_lower.

(** [a <= b] on the numeric values [leads_found] takes *)
Definition leads_le (a b : pyval) : Prop :=
  exists xa xb, py_num a = Some xa /\ py_num b = Some xb /\ flt_le xa xb = true.

(** the invariant of every state the manager reaches *)
Definition inv_core (m : manager) : Prop :=
  (exists x, py_num (wa_leads_found (model m)) = Some x /\ flt_le (Fin 0) x = true)
  /\ (exists x, analytics (state m) = [("leads_found"%string, x)])
  /\ total_tasks (progress_of (state m)) = 4
  /\ 0 <= current_step (progress_of (state m)) <= 4.

(** [current_step] as the operations of a run set it: a reset sets 0, an
    [update_current_task] with a canonical task name sets that task's
    1-based position, and every other operation keeps it *)
Fixpoint step_after (ops : list (sm_op * Q)) (k : Z) : Z :=
  match ops with
  | [] => k
  | (op, _) :: t =>
      step_after t
        (match op with
         | OpReset => 0
         | OpTask (Some n) =>
             match index_of n task_order with Some i => Z.of_nat i + 1 | None => k end
         | _ => k
         end)
  end.

(** a timestamp that is either unset or a positive clock reading *)
Definition pos_opt (t : option Q) : Prop :=
  match t with Some q => (0 < q)%Q | None => True end.

Definition timing_pos (m : manager) : Prop :=
  pos_opt (start_time (timing_of (state m))) /\ pos_opt (current_task_start (timing_of (state m))).

(** a handler computation that returns normally from every handler object *)
Definition hreturns {A : Type} (m : hm A) : Prop :=
  forall h, exists a h', m h = Returned a h'.

(** [event[outer]], when present, is a mapping whose [inner] entry, when
    present, is a string *)
Definition field_ok (event : list (string * pyval)) (outer inner : string) : bool :=
  match lookup outer event with
  | None => true
  | Some (PDict kvs) =>
      match lookup inner kvs with None => true | Some (PStr _) => true | Some _ => false end
  | Some _ => false
  end.

(** the agent and task payloads of an event are well formed *)
Definition payloads_ok (event : list (string * pyval)) : bool :=
  field_ok event "agent" "role" && field_ok event "task" "description".

(** a handler object fresh from [EventHandlers(...)] *)
Definition handlers0 : handlers := mkHandlers (new_manager 1) [] [] [] 2.

(** the listener's calls other than [on_workflow_start]; [UiReset] is
    [reset()] *)
Inductive ui_op : Type :=
| UiReset
| UiWorkflowComplete (success : bool)
| UiAgentStart (agent_name : string)
| UiAgentComplete (agent_name : string) (success : bool)
| UiTaskStart (task_name : string)
| UiTaskComplete (task_name : string) (success : bool)
| UiToolStart (tool_name : string)
| UiToolComplete (tool_name : string) (success : bool)
| UiAnalytics (analytics_data : list (string * pyval)).

Definition ui_step (op : ui_op) (s : ui_state) : res ui_state :=
  match op with
  | UiReset => Ok ui_init
  | UiWorkflowComplete b => Ok (on_workflow_complete b s)
  | UiAgentStart a => Ok (on_agent_start a s)
  | UiAgentComplete a b => Ok (on_agent_complete a b s)
  | UiTaskStart t => Ok (on_task_start t s)
  | UiTaskComplete t b => on_task_complete t b s
  | UiToolStart t => Ok (on_tool_start t s)
  | UiToolComplete t b => Ok (on_tool_complete t b s)
  | UiAnalytics d => Ok (ui_update_analytics d s)
  end.

Fixpoint ui_run (ops : list ui_op) (s : ui_state) : res ui_state :=
  match ops with
  | [] => Ok s
  | op :: t => let* s' := ui_step op s in ui_run t s'
  end.

(** a handler computation keeps the property [P] of its state manager,
    whether it returns or raises *)
Definition hpres {A : Type} (P : manager -> Prop) (m : hm A) : Prop :=
  forall h, P (state_manager h) ->
    match m h with
    | Returned _ h' => P (state_manager h')
    | Raised _ h' => P (state_manager h')
    | Hung => True
    end.

(** a handler computation that never hangs and leaves its state manager
    as it is *)
Definition hkeeps {A : Type} (m : hm A) : Prop :=
  forall h,
    match m h with
    | Returned _ h' => state_manager h' = state_manager h
    | Raised _ h' => state_manager h' = state_manager h
    | Hung => False
    end.

(** the keys [_extract_task_key] returns *)
Definition task_keys : list string :=
  ["collect_user_input"; "scrape_leads"; "validate_lead_emails"; "save_data";
   "unknown_task"]%string.

(** the entries [add_completed_task] records for those keys *)
Definition handler_completed_names : list string :=
  map (fun k => str_get TASK_NAMES k k) task_keys.

(** the progress of a state manager driven by the handlers *)
Definition hinv (m : manager) : Prop :=
  let p := progress_of (state m) in
  total_tasks p = 4
  /\ NoDup (completed_tasks p)
  /\ incl (completed_tasks p) handler_completed_names
  /\ In (current_step p) [0; 1; 3; 4].


(** all the listener's calls *)
Inductive ui_call : Type :=
| UiStart
| UiCall (op : ui_op).

Definition ui_call_step (c : ui_call) (s : ui_state) : res ui_state :=
  match c with
  | UiStart => Ok (on_workflow_start s)
  | UiCall op => ui_step op s
  end.

Fixpoint ui_calls_run (cs : list ui_call) (s : ui_state) : res ui_state :=
  match cs with
  | [] => Ok s
  | c :: t => let* s' := ui_call_step c s in ui_calls_run t s'
  end.

(** the progress of the listener between calls *)
Definition ui_inv (s : ui_state) : Prop :=
  let p := ui_progress_of s in
  NoDup (ui_completed_tasks p)
  /\ ((ui_total_tasks p = 0 /\ (ui_percentage p = 0 \/ ui_percentage p = 100))
      \/ (ui_total_tasks p = 4
          /\ (ui_percentage p = 100
              \/ ui_percentage p = 25 * Z.of_nat (length (ui_completed_tasks p))))).

(** five [task_end] events, one for each key [_extract_task_key] returns *)
Definition five_task_ends : list (h_event * Q) :=
  map (fun d => (EvTaskEnd [("task"%string, PDict [("description"%string, PStr d)])], 3%Q))
    ["collect input"; "scrape"; "validate"; "save"; "other"]%string.

(** [on_workflow_start], then five distinct completed tasks *)
Definition five_ui_completions : list ui_call :=
  UiStart :: map (fun n => UiCall (UiTaskComplete n true))
                 ["scrape_leads"; "find_lead_emails"; "validate_lead_emails"; "save_data";
                  "collect_user_input"]%string.

(** an [agent] event, and a [task] event without output *)
Definition ev_agent : list (string * pyval) :=
  [("agent"%string, PDict [("role"%string, PStr "scraper_agent")])].

Definition ev_task : list (string * pyval) :=
  [("task"%string, PDict [("description"%string, PStr "Scrape leads from the web")])].

(* ================================================================== *)
(** * Properties *)

(** ** Lemmas on the builtins and on the pattern matcher *)












(** ** The analytics parser *)








Lemma sum_leads_results (rs : list parse_result) (a : Z) :
  sum_leads (PInt a) (map result_to_dict rs)
  = Ok (PInt (a + fold_right Z.add 0 (map r_leads_found rs))).
Proof.
  revert a; induction rs as [|r t IH]; intros a; simpl.
  - rewrite Z.add_0_r. reflexivity.
  - rewrite IH. do 2 f_equal. lia.
Qed.

Lemma count_success_results (rs : list parse_result) :
  count_success (map result_to_dict rs) = Ok (length (filter r_success rs)).
Proof.
  induction rs as [|r t IH]; simpl; [reflexivity|].
  rewrite IH. simpl. destruct (r_success r); reflexivity.
Qed.

(** C7.  Over parse results [rs], [create_workflow_analytics] returns the
    sum of their [leads_found] and a [success_rate] of (number of results
    with [success] true) / N, and 0.0 for the empty list. *)
Theorem create_workflow_analytics_aggregates (rs : list parse_result) (execution_time : Q) :
  create_workflow_analytics (map result_to_dict rs) execution_time
  = Ok (mkWA (PInt (fold_right Z.add 0 (map r_leads_found rs))) execution_time None
          (if (length rs =? 0)%nat then 0%Q
           else (inject_Z (Z.of_nat (length (filter r_success rs)))
                 / inject_Z (Z.of_nat (length rs)))%Q))
  /\ create_workflow_analytics [] execution_time = Ok (mkWA (PInt 0) execution_time None 0%Q).
Proof.
  split; [|reflexivity].
  unfold create_workflow_analytics.
  rewrite sum_leads_results, count_success_results. simpl bind.
  rewrite length_map. destruct (length rs); reflexivity.
Qed.

(** C3 fails as stated: on the text ["Found 12 leads"] the record path
    yields a delta of 1 while the parser reads 12, and on the mapping
    [{leads: [1,2,3]}] the record path yields 0 while the parser yields 3. *)
Lemma extract_analytics_diverges_from_parser :
  extract_analytics (ok_record "scraper_agent" "scrape_leads" (PStr "Found 12 leads"))
    = Ok (set_leads wa_default (PInt 1))
  /\ parse_agent_output "scraper_agent" (PStr "Found 12 leads") = Ok (mkResult 12 (Fin 0) true None)
  /\ extract_analytics (ok_record "scraper_agent" "scrape_leads"
                          (PDict [("leads"%string, PList [PInt 1; PInt 2; PInt 3])]))
    = Ok (set_leads wa_default (PInt 0))
  /\ parse_agent_output "scraper_agent" (PDict [("leads"%string, PList [PInt 1; PInt 2; PInt 3])])
    = Ok (mkResult 3 (Fin 0) true None).
Proof. repeat split; vm_compute; reflexivity. Qed.

Lemma parse_dict_output_fallback (kvs : list (string * pyval)) (p : partial) :
  lookup "leads_found" kvs = None -> parse_dict_output kvs = Ok p ->
  leads_fallback kvs (p_leads p).
Proof.
  intros Hlf Hp. unfold parse_dict_output in Hp. rewrite Hlf in Hp.
  unfold leads_fallback.
  destruct (lookup "leads" kvs) as [[| | | | |xs|inner|]|];
    try (destruct (lookup "leads" inner) as [w|];
         [destruct (py_len w) as [n|e]; cbn [bind] in Hp|]);
    cbn [bind] in Hp;
    try discriminate;
    destruct (lookup "execution_time" kvs) as [u|];
    try (destruct (py_float u); cbn [bind] in Hp); try discriminate;
    inversion Hp; subst; simpl; eauto.
Qed.

(** C3 (amended).  For a successful call, the leads_found delta of
    [AgentExecutionRecord.extract_analytics] equals the parser's
    leads_found on every list, and on every mapping whose [leads_found]
    is an integer and whose [execution_time], when present, casts to
    float.  On a mapping without [leads_found] the record path's delta is
    0, while the parser resolves the [leads] fallbacks (list length,
    nested length, else 0) when its casts succeed and gives 0 when one
    raises.  On text the record path only tests for the words lead or
    contact: its delta is 1 if the lowered text contains one of them and 0
    otherwise, whatever count the text states. *)
Theorem extract_analytics_agrees_with_parser (agent_name task_name : string) :
  (forall xs : list pyval,
     exists r, parse_agent_output agent_name (PList xs) = Ok r
       /\ extract_analytics (ok_record agent_name task_name (PList xs))
          = Ok (set_leads wa_default (PInt (r_leads_found r))))
  /\ (forall (kvs : list (string * pyval)) (z : Z),
        lookup "leads_found" kvs = Some (PInt z) ->
        (forall v, lookup "execution_time" kvs = Some v -> exists q, py_float v = Ok q) ->
        exists r, parse_agent_output agent_name (PDict kvs) = Ok r
          /\ r_leads_found r = z
          /\ extract_analytics (ok_record agent_name task_name (PDict kvs))
             = Ok (set_leads wa_default (PInt z)))
  /\ (forall kvs : list (string * pyval),
        lookup "leads_found" kvs = None ->
        extract_analytics (ok_record agent_name task_name (PDict kvs))
          = Ok (set_leads wa_default (PInt 0))
        /\ exists r, parse_agent_output agent_name (PDict kvs) = Ok r
          /\ (r_success r = true -> leads_fallback kvs (r_leads_found r))
          /\ (r_success r = false -> r_leads_found r = 0))
  /\ (forall s : string,
        extract_analytics (ok_record agent_name task_name (PStr s))
        = Ok (set_leads wa_default (PInt (if mentions_leads s then 1 else 0)))).
Proof.
  split; [|split; [|split]].
  - intros xs. eexists; split; [reflexivity|].
    destruct xs as [|x xs]; reflexivity.
  - intros kvs z Hlf Hex.
    assert (Hx : extract_analytics (ok_record agent_name task_name (PDict kvs))
                 = Ok (set_leads wa_default (PInt z))).
    { destruct kvs as [|kv kvs]; [discriminate|].
      unfold extract_analytics, dict_get. simpl rec_output_data. simpl rec_success.
      cbv iota beta. change (truthy (PDict (kv :: kvs))) with true.
      simpl negb. cbv iota beta. rewrite Hlf. reflexivity. }
    unfold parse_agent_output, parse_shape, parse_dict_output.
    rewrite Hlf. simpl.
    destruct (lookup "execution_time" kvs) as [v|] eqn:E.
    + destruct (Hex v eq_refl) as [q Hq]. rewrite Hq. simpl.
      eexists; split; [reflexivity|split; [reflexivity|exact Hx]].
    + simpl. eexists; split; [reflexivity|split; [reflexivity|exact Hx]].
  - intros kvs Hlf. split.
    + destruct kvs as [|kv kvs]; [reflexivity|].
      unfold extract_analytics, dict_get. simpl rec_output_data. simpl rec_success.
      cbv iota beta. change (truthy (PDict (kv :: kvs))) with true.
      simpl negb. cbv iota beta. rewrite Hlf. reflexivity.
    + unfold parse_agent_output. cbn [parse_shape].
      destruct (parse_dict_output kvs) as [p|e] eqn:Ep; cbn [bind].
      * eexists; split; [reflexivity|]. split; [|discriminate].
        intros _. exact (parse_dict_output_fallback kvs p Hlf Ep).
      * eexists; split; [reflexivity|]. split; [discriminate|reflexivity].
  - intros s. unfold extract_analytics, mentions_leads. simpl rec_output_data.
    destruct s as [|c s]; [reflexivity|].
    simpl rec_success. change (truthy (PStr (String c s))) with true.
    cbn [negb orb]. destruct (contains _ _ || contains _ _); reflexivity.
Qed.

(* ------------------------------------------------------------------ *)
(** ** Runs of the state manager *)

Lemma flt_lt_le (x y : flt) : flt_lt x y = true -> flt_le x y = true.
Proof.
  destruct x as [a|[]|], y as [b|[]|]; simpl; try discriminate; auto.
  intros H. apply Qle_bool_iff. apply Qlt_le_weak, Qnot_le_lt.
  intros Hle. apply Qle_bool_iff in Hle. rewrite Hle in H. discriminate.
Qed.

Lemma flt_le_trans (x y z : flt) :
  flt_le x y = true -> flt_le y z = true -> flt_le x z = true.
Proof.
  destruct x as [a|[]|], y as [b|[]|], z as [c|[]|]; simpl; try discriminate; auto.
  rewrite !Qle_bool_iff. apply Qle_trans.
Qed.

Lemma flt_le_refl_r (x y : flt) : flt_le x y = true -> flt_le y y = true.
Proof.
  destruct x as [a|[]|], y as [b|[]|]; simpl; try discriminate; auto;
    intros _; apply Qle_bool_iff, Qle_refl.
Qed.

Lemma flt_le_not_lt (x y : flt) : flt_le x y = true -> flt_lt y x = false.
Proof.
  destruct x as [a|[]|], y as [b|[]|]; simpl; try discriminate; auto.
  intros H. rewrite H. reflexivity.
Qed.

Lemma py_gt_num (a b : pyval) (x y : flt) :
  py_num a = Some x -> py_num b = Some y -> py_gt a b = Ok (flt_lt y x).
Proof.
  intros Ha Hb.
  destruct a; try discriminate; destruct b; try discriminate;
    unfold py_gt; rewrite Ha, Hb; reflexivity.
Qed.

Lemma py_gt_not_num (a b : pyval) (y : flt) :
  py_num a = None -> py_num b = Some y -> py_gt a b = Raise TypeError.
Proof.
  intros Ha Hb.
  destruct a; try discriminate; destruct b; try discriminate;
    unfold py_gt; rewrite ?Ha, ?Hb; reflexivity.
Qed.

Lemma py_max_num (a b v : pyval) (qa : flt) :
  py_num a = Some qa -> flt_le qa qa = true -> py_max a b = Ok v ->
  exists qv, py_num v = Some qv /\ flt_le qa qv = true.
Proof.
  intros Ha Hr Hm. unfold py_max in Hm.
  destruct (py_num b) as [qb|] eqn:Hb.
  - rewrite (py_gt_num _ _ _ _ Hb Ha) in Hm. simpl in Hm. injection Hm as <-.
    destruct (flt_lt qa qb) eqn:E; simpl.
    + exists qb; split; [exact Hb | exact (flt_lt_le _ _ E)].
    + exists qa; split; [exact Ha | exact Hr].
  - rewrite (py_gt_not_num _ _ _ Hb Ha) in Hm. discriminate.
Qed.

Lemma py_max_zero (a : pyval) (q : flt) :
  py_num a = Some q -> flt_le (Fin 0) q = true -> py_max a (PInt 0) = Ok a.
Proof.
  intros Ha Hq. unfold py_max.
  rewrite (py_gt_num (PInt 0) a (Fin 0) q eq_refl Ha).
  rewrite (flt_le_not_lt _ _ Hq). reflexivity.
Qed.

Lemma index_of_lt (x : string) (l : list string) (i : nat) :
  index_of x l = Some i -> (i < length l)%nat.
Proof.
  revert i; induction l as [|y t IH]; intros i H; simpl in H; [discriminate|].
  destruct (String.eqb x y).
  - injection H as <-. simpl. lia.
  - destruct (index_of x t) as [j|] eqn:E; simpl in H; [|discriminate].
    injection H as <-. specialize (IH j eq_refl). simpl. lia.
Qed.

Lemma merge_known_single (u : list (string * pyval)) (x : pyval) :
  exists x', merge_known u [("leads_found"%string, x)] = [("leads_found"%string, x')].
Proof.
  revert x; induction u as [|[k v] t IH]; intros x; simpl; [eauto|].
  unfold has_key; simpl.
  destruct (String.eqb k "leads_found") eqn:E; simpl; rewrite ?E; apply IH.
Qed.

(** how a [process_agent_output] call that returns leaves the manager *)
Lemma process_cases a t o sc em et now m m' :
  process_agent_output a t o sc em et now m = Done m' ->
  m' = m
  \/ exists r na v,
       make_record a t o sc em et = Ok r /\ extract_analytics r = Ok na
       /\ py_max (wa_leads_found (model m)) (wa_leads_found na) = Ok v
       /\ m' = mkManager (set_last_update (set_analytics (state m) [("leads_found"%string, v)]) now)
                         (set_leads (model m) v).
Proof.
  unfold process_agent_output.
  destruct (make_record a t o sc em et) as [r|e] eqn:Er; simpl.
  - destruct (extract_analytics r) as [na|e] eqn:Ea; simpl.
    + destruct (py_max (wa_leads_found (model m)) (wa_leads_found na)) as [v|e] eqn:Ev.
      * intros H; injection H as <-. right. eauto 8.
      * destruct o; intros H; try discriminate; injection H as <-; left; reflexivity.
    + destruct o; intros H; try discriminate; injection H as <-; left; reflexivity.
  - destruct o; intros H; try discriminate; injection H as <-; left; reflexivity.
Qed.

(** only [process_agent_output] touches [self._analytics] *)
Lemma step_model op now m m' :
  sm_step op now m = Done m' ->
  model m' = model m
  \/ exists a t o sc em et, op = OpProcess a t o sc em et
       /\ process_agent_output a t o sc em et now m = Done m'.
Proof.
  destruct op; simpl; intros H; try (injection H as <-; left; reflexivity).
  right. eauto 10.
Qed.

Lemma inv_core_new (t0 : Q) : inv_core (new_manager t0).
Proof.
  split; [exists (Fin 0); split; reflexivity|].
  split; [eexists; reflexivity|]. split; [reflexivity|]. simpl; lia.
Qed.

Ltac inv_parts :=
  refine (conj _ (conj _ (conj _ _))); simpl;
  try assumption; try lia; try (eexists; reflexivity).

Lemma inv_core_step op now m m' :
  inv_core m -> sm_step op now m = Done m' -> inv_core m'.
Proof.
  intros (Hm & Hx & Ht & Hs) H.
  destruct op; simpl in H.
  - (* OpReset *)
    injection H as <-. inv_parts.
  - injection H as <-. inv_parts.
  - injection H as <-. inv_parts.
  - (* OpTask *)
    injection H as <-. unfold update_current_task, on_state.
    destruct task_name as [n|]; [|inv_parts].
    destruct (negb (String.eqb n "")); [|inv_parts].
    destruct (index_of n task_order) as [i|] eqn:Ei; [|inv_parts].
    apply index_of_lt in Ei; simpl in Ei. inv_parts.
  - injection H as <-. inv_parts.
  - (* OpCompleted *)
    injection H as <-. unfold add_completed_task, on_state.
    destruct (str_mem _ _); inv_parts.
  - injection H as <-. inv_parts.
  - (* OpAnalytics *)
    injection H as <-. inv_parts.
    destruct Hx as [x Hx]. rewrite Hx. apply merge_known_single.
  - (* OpProcess *)
    apply process_cases in H as [->|(r & na & v & _ & _ & Hv & ->)];
      [refine (conj Hm (conj Hx (conj Ht Hs)))|].
    destruct Hm as [q [Hq Hq0]].
    destruct (py_max_num _ _ _ _ Hq (flt_le_refl_r _ _ Hq0) Hv) as [qv [Hqv Hle]].
    inv_parts. exists qv; split; [destruct (model m); exact Hqv|].
    exact (flt_le_trans _ _ _ Hq0 Hle).
  - injection H as <-. inv_parts.
Qed.

Lemma inv_core_run ops m m' :
  inv_core m -> run ops m = Done m' -> inv_core m'.
Proof.
  revert m; induction ops as [|[op now] t IH]; intros m Hm H; simpl in H.
  - injection H as <-; exact Hm.
  - destruct (sm_step op now m) as [m1|] eqn:E; [|discriminate].
    exact (IH m1 (inv_core_step _ _ _ _ Hm E) H).
Qed.

Lemma inv_core_reachable t0 ops m :
  run ops (new_manager t0) = Done m -> inv_core m.
Proof. apply inv_core_run, inv_core_new. Qed.

Lemma leads_le_refl (a : pyval) (q : flt) :
  py_num a = Some q -> flt_le q q = true -> leads_le a a.
Proof. intros H Hr. exists q, q. split; [exact H|]. split; [exact H | exact Hr]. Qed.

Lemma leads_le_trans (a b c : pyval) : leads_le a b -> leads_le b c -> leads_le a c.
Proof.
  intros (qa & qb & Ha & Hb & Hab) (qb' & qc & Hb' & Hc & Hbc).
  rewrite Hb in Hb'. injection Hb' as <-.
  exists qa, qc. split; [exact Ha|]. split; [exact Hc|]. eapply flt_le_trans; eauto.
Qed.

Lemma step_leads_le op now m m' :
  inv_core m -> sm_step op now m = Done m' ->
  leads_le (wa_leads_found (model m)) (wa_leads_found (model m')).
Proof.
  intros Hi H. destruct Hi as ([q [Hq Hq0]] & _).
  pose proof (flt_le_refl_r _ _ Hq0) as Hr.
  destruct (step_model _ _ _ _ H) as [-> | (a & t & o & sc & em & et & _ & Hp)].
  - eapply leads_le_refl; eauto.
  - apply process_cases in Hp as [-> | (r & na & v & _ & _ & Hv & ->)].
    + eapply leads_le_refl; eauto.
    + destruct (py_max_num _ _ _ _ Hq Hr Hv) as [qv [Hqv Hle]].
      exists q, qv. simpl. destruct (model m); simpl in *. auto.
Qed.

Lemma run_leads_le ops m m' :
  inv_core m -> run ops m = Done m' ->
  leads_le (wa_leads_found (model m)) (wa_leads_found (model m')).
Proof.
  revert m; induction ops as [|[op now] t IH]; intros m Hm H; simpl in H.
  - injection H as <-. destruct Hm as ([q [Hq Hq0]] & _).
    exact (leads_le_refl _ _ Hq (flt_le_refl_r _ _ Hq0)).
  - destruct (sm_step op now m) as [m1|] eqn:E; [|discriminate].
    eapply leads_le_trans; [exact (step_leads_le _ _ _ _ Hm E)|].
    exact (IH m1 (inv_core_step _ _ _ _ Hm E) H).
Qed.

(** C2 fails as stated: after [process_agent_output] reports 3 leads, an
    [update_analytics] with [leads_found] 2 replaces the state's 3 by 2. *)
Lemma analytics_leads_decrease :
  run [(OpProcess "scraper_agent" "scrape_leads" (PDict [("leads_found"%string, PInt 3)])
          true None PNone, 2%Q);
       (OpAnalytics [("leads_found"%string, PInt 2)], 3%Q)] (new_manager 1)
  = Done (mkManager
            (mkState "idle" PNone None None (mkProgress [] 4 0)
               [("leads_found"%string, PInt 2)] (mkTiming None None) [] 3)
            (mkWA (PInt 3) 0 None 0)).
Proof. reflexivity. Qed.

(** C2 (amended).  In every state a run of the manager reaches, the
    running value [self._analytics.leads_found] never decreases under any
    further operations; a [process_agent_output] call that returns either
    leaves the manager as it was or writes that running value into the
    state's analytics; the state's analytics is the single [leads_found]
    entry; and [update_analytics] overwrites that entry with the given
    value, smaller or not. *)
Theorem analytics_leads_model_monotone (t0 : Q) (ops : list (sm_op * Q)) (m : manager)
  (Hrun : run ops (new_manager t0) = Done m) :
  (forall ops' m', run ops' m = Done m' ->
     leads_le (wa_leads_found (model m)) (wa_leads_found (model m')))
  /\ (forall a t o sc em et now m', process_agent_output a t o sc em et now m = Done m' ->
        m' = m \/ analytics (state m') = [("leads_found"%string, wa_leads_found (model m'))])
  /\ (exists x, analytics (state m) = [("leads_found"%string, x)])
  /\ (forall v now, analytics (state (update_analytics [("leads_found"%string, v)] now m))
                    = [("leads_found"%string, v)]).
Proof.
  pose proof (inv_core_reachable _ _ _ Hrun) as Hi.
  split; [intros ops' m' H; exact (run_leads_le _ _ _ Hi H)|].
  split.
  - intros a t o sc em et now m' H.
    apply process_cases in H as [-> | (r & na & v & _ & _ & _ & ->)]; [left; reflexivity|].
    right. simpl. destruct (model m); reflexivity.
  - destruct Hi as (_ & [x Hx] & _). split; [eauto|].
    intros v now. simpl. rewrite Hx. reflexivity.
Qed.

Lemma analytics_leads_model_monotone_witness :
  exists m, run [(OpProcess "scraper_agent" "scrape_leads"
                    (PDict [("leads_found"%string, PInt 3)]) true None PNone, 2%Q)]
                (new_manager 1) = Done m
  /\ ((forall ops' m', run ops' m = Done m' ->
         leads_le (wa_leads_found (model m)) (wa_leads_found (model m')))
      /\ (forall a t o sc em et now m', process_agent_output a t o sc em et now m = Done m' ->
            m' = m \/ analytics (state m') = [("leads_found"%string, wa_leads_found (model m'))])
      /\ (exists x, analytics (state m) = [("leads_found"%string, x)])
      /\ (forall v now, analytics (state (update_analytics [("leads_found"%string, v)] now m))
                        = [("leads_found"%string, v)])).
Proof.
  eexists. split; [reflexivity|].
  apply (analytics_leads_model_monotone 1
           [(OpProcess "scraper_agent" "scrape_leads"
               (PDict [("leads_found"%string, PInt 3)]) true None PNone, 2%Q)]).
  reflexivity.
Defined.

Lemma extract_analytics_failed_or_falsy (r : agent_execution_record) :
  rec_success r = false \/ truthy (rec_output_data r) = false ->
  extract_analytics r = Ok wa_default.
Proof.
  intros H. unfold extract_analytics.
  destruct H as [-> | ->]; [reflexivity|].
  rewrite orb_true_r. reflexivity.
Qed.

(** C9 fails as stated: the state's [leads_found] is 2 after an
    [update_analytics], and a [process_agent_output] call with
    [success=False] then writes the running value 5 back into it. *)
Lemma failed_output_changes_analytics :
  run [(OpProcess "scraper_agent" "scrape_leads" (PDict [("leads_found"%string, PInt 5)])
          true None PNone, 2%Q);
       (OpAnalytics [("leads_found"%string, PInt 2)], 3%Q)] (new_manager 1)
  = Done (mkManager
            (mkState "idle" PNone None None (mkProgress [] 4 0)
               [("leads_found"%string, PInt 2)] (mkTiming None None) [] 3)
            (mkWA (PInt 5) 0 None 0))
  /\ process_agent_output "scraper_agent" "scrape_leads" (PStr "x") false None PNone 4
       (mkManager
          (mkState "idle" PNone None None (mkProgress [] 4 0)
             [("leads_found"%string, PInt 2)] (mkTiming None None) [] 3)
          (mkWA (PInt 5) 0 None 0))
  = Done (mkManager
            (mkState "idle" PNone None None (mkProgress [] 4 0)
               [("leads_found"%string, PInt 5)] (mkTiming None None) [] 4)
            (mkWA (PInt 5) 0 None 0)).
Proof. split; reflexivity. Qed.

(** C9 (amended).  In every state a run of the manager reaches, a
    [process_agent_output] call with [success] false or a falsy output
    leaves [self._analytics] unchanged.  When the record can be built, the
    call returns and sets the state's analytics to the single entry
    [leads_found] = [self._analytics.leads_found] and [last_update] to the
    call's clock reading, all else unchanged.  When the record cannot be
    built (an [execution_time] that does not cast to float), the call
    leaves the manager as it was if the output is not a mapping, and hangs
    if it is one. *)
Theorem process_failed_or_falsy_frame (t0 : Q) (ops : list (sm_op * Q)) (m : manager)
  (Hrun : run ops (new_manager t0) = Done m)
  (agent_name task_name : string) (output : pyval) (success : bool)
  (error_message : option string) (execution_time : pyval) (now : Q)
  (Hf : success = false \/ truthy output = false) :
  match process_agent_output agent_name task_name output success error_message
          execution_time now m with
  | Done m' =>
      model m' = model m
      /\ ((returns (make_record agent_name task_name output success error_message
                                execution_time)
           /\ state m' = set_last_update
                          (set_analytics (state m)
                             [("leads_found"%string, wa_leads_found (model m))]) now)
          \/ ((exists e, make_record agent_name task_name output success error_message
                          execution_time = Raise e)
              /\ (forall kvs, output <> PDict kvs)
              /\ m' = m))
  | Deadlock =>
      (exists kvs, output = PDict kvs)
      /\ (exists e, make_record agent_name task_name output success error_message
                      execution_time = Raise e)
  end.
Proof.
  destruct (inv_core_reachable _ _ _ Hrun) as ([q [Hq Hq0]] & _).
  unfold process_agent_output.
  destruct (make_record agent_name task_name output success error_message execution_time)
    as [r|e] eqn:Er; simpl.
  - assert (Hr : rec_success r = false \/ truthy (rec_output_data r) = false).
    { unfold make_record in Er.
      destruct (validate_opt_float execution_time); simpl in Er; [|discriminate].
      injection Er as <-. exact Hf. }
    rewrite (extract_analytics_failed_or_falsy r Hr). simpl.
    rewrite (py_max_zero _ _ Hq Hq0). simpl.
    split; [destruct (model m); reflexivity | left; split; [exists r; reflexivity | reflexivity]].
  - destruct output; simpl;
      try (split; [reflexivity | right; split; [eauto | split; [discriminate | reflexivity]]]).
    split; eauto.
Qed.

Lemma process_failed_or_falsy_frame_witness :
  exists m, run [(OpProcess "scraper_agent" "scrape_leads"
                    (PDict [("leads_found"%string, PInt 5)]) true None PNone, 2%Q)]
                (new_manager 1) = Done m
  /\ (false = false \/ truthy (PStr "x") = false)
  /\ match process_agent_output "scraper_agent" "scrape_leads" (PStr "x") false None PNone 3 m with
     | Done m' =>
         model m' = model m
         /\ ((returns (make_record "scraper_agent" "scrape_leads" (PStr "x") false None PNone)
              /\ state m' = set_last_update
                             (set_analytics (state m)
                                [("leads_found"%string, wa_leads_found (model m))]) 3)
             \/ ((exists e, make_record "scraper_agent" "scrape_leads" (PStr "x") false None PNone
                             = Raise e)
                 /\ (forall kvs, PStr "x" <> PDict kvs)
                 /\ m' = m))
     | Deadlock =>
         (exists kvs, PStr "x" = PDict kvs)
         /\ (exists e, make_record "scraper_agent" "scrape_leads" (PStr "x") false None PNone
                         = Raise e)
     end.
Proof.
  eexists. split; [reflexivity|]. split; [left; reflexivity|].
  apply (process_failed_or_falsy_frame 1
           [(OpProcess "scraper_agent" "scrape_leads"
               (PDict [("leads_found"%string, PInt 5)]) true None PNone, 2%Q)]);
    [reflexivity | left; reflexivity].
Defined.

Lemma step_current_step op now m m' :
  sm_step op now m = Done m' ->
  current_step (progress_of (state m'))
  = match op with
    | OpReset => 0
    | OpTask (Some n) =>
        match index_of n task_order with
        | Some i => Z.of_nat i + 1
        | None => current_step (progress_of (state m))
        end
    | _ => current_step (progress_of (state m))
    end.
Proof.
  destruct op; intros H; simpl in H.
  - injection H as <-. reflexivity.
  - injection H as <-. reflexivity.
  - injection H as <-. reflexivity.
  - injection H as <-. unfold update_current_task, on_state.
    destruct task_name as [n|]; [|reflexivity].
    destruct (String.eqb n "") eqn:E.
    + apply String.eqb_eq in E. subst n. reflexivity.
    + cbn [negb]. destruct (index_of n task_order); reflexivity.
  - injection H as <-. reflexivity.
  - injection H as <-. unfold add_completed_task, on_state.
    destruct (str_mem _ _); reflexivity.
  - injection H as <-. reflexivity.
  - injection H as <-. reflexivity.
  - apply process_cases in H as [-> | (r & na & v & _ & _ & _ & ->)]; reflexivity.
  - injection H as <-. reflexivity.
Qed.

Lemma run_current_step ops m m' :
  run ops m = Done m' ->
  current_step (progress_of (state m')) = step_after ops (current_step (progress_of (state m))).
Proof.
  revert m; induction ops as [|[op now] t IH]; intros m H; simpl in H |- *.
  - injection H as <-. reflexivity.
  - destruct (sm_step op now m) as [m1|] eqn:E; [|discriminate].
    rewrite (IH m1 H), (step_current_step _ _ _ _ E).
    destruct op as [| | | [n|] | | | | | |]; reflexivity.
Qed.

(** C4 fails as stated: after [update_current_task('scrape_leads')] and
    then [update_current_task(None)], no task is active but
    [current_step] is still 1. *)
Lemma current_step_kept_without_task :
  match run [(OpTask (Some "scrape_leads"%string), 2%Q); (OpTask None, 3%Q)] (new_manager 1) with
  | Done m => current_task (state m) = None /\ current_step (progress_of (state m)) = 1
  | Deadlock => False
  end.
Proof. split; reflexivity. Qed.

(** C4 (amended).  In every state a run of the manager reaches,
    [current_step] is the one [step_after] computes from the run: the
    1-based position in the canonical order of the last canonical task
    name passed to [update_current_task] since the last reset, and 0 when
    there is none; other task names and [None] keep it, so it does not
    return to 0 when no task is active.  It lies between 0 and 4. *)
Theorem current_step_tracks_tasks (t0 : Q) (ops : list (sm_op * Q)) (m : manager)
  (Hrun : run ops (new_manager t0) = Done m) :
  current_step (progress_of (state m)) = step_after ops 0
  /\ 0 <= current_step (progress_of (state m)) <= 4.
Proof.
  split.
  - exact (run_current_step _ _ _ Hrun).
  - apply (inv_core_reachable _ _ _ Hrun).
Qed.

Lemma current_step_tracks_tasks_witness :
  exists m, run [(OpTask (Some "find_lead_emails"%string), 2%Q); (OpTask None, 3%Q)]
                (new_manager 1) = Done m
  /\ current_step (progress_of (state m))
     = step_after [(OpTask (Some "find_lead_emails"%string), 2%Q); (OpTask None, 3%Q)] 0
  /\ 0 <= current_step (progress_of (state m)) <= 4.
Proof.
  eexists. split; [reflexivity|].
  apply (current_step_tracks_tasks 1
           [(OpTask (Some "find_lead_emails"%string), 2%Q); (OpTask None, 3%Q)]).
  reflexivity.
Defined.

Lemma timing_pos_new (t0 : Q) : timing_pos (new_manager t0).
Proof. split; exact I. Qed.

Lemma timing_pos_step op now m m' :
  (0 < now)%Q -> timing_pos m -> sm_step op now m = Done m' -> timing_pos m'.
Proof.
  intros Hn [Hs Hc] H. destruct op; simpl in H.
  - injection H as <-. split; exact I.
  - injection H as <-. split; assumption.
  - injection H as <-. split; assumption.
  - injection H as <-. unfold update_current_task, on_state.
    destruct task_name as [n|]; [|split; assumption].
    destruct (negb (String.eqb n "")); [|split; assumption].
    destruct (index_of n task_order); split; assumption.
  - injection H as <-. split; assumption.
  - injection H as <-. unfold add_completed_task, on_state.
    destruct (str_mem _ _); split; assumption.
  - injection H as <-. split; assumption.
  - injection H as <-. split; assumption.
  - apply process_cases in H as [-> | (r & na & v & _ & _ & _ & ->)]; split; assumption.
  - injection H as <-. split; assumption.
Qed.

Lemma timing_pos_run ops m m' :
  Forall (fun o => (0 < snd o)%Q) ops -> timing_pos m -> run ops m = Done m' -> timing_pos m'.
Proof.
  revert m; induction ops as [|[op now] t IH]; intros m Hops Hm H; simpl in H.
  - injection H as <-; exact Hm.
  - inversion Hops as [|x l Hn Ht]; subst.
    destruct (sm_step op now m) as [m1|] eqn:E; [|discriminate].
    exact (IH m1 Ht (timing_pos_step _ _ _ _ Hn Hm E) H).
Qed.

Lemma set_and_truthy_pos (t : option Q) :
  pos_opt t -> set_and_truthy t = match t with Some _ => true | None => false end.
Proof.
  destruct t as [q|]; simpl; [|reflexivity]. intros Hq.
  destruct (Qeq_bool q 0) eqn:E; [|reflexivity].
  apply Qeq_bool_iff in E. rewrite E in Hq. exact (False_ind _ (Qlt_irrefl 0 Hq)).
Qed.

Lemma round_half_even_compat (x y : Q) : (x == y)%Q -> round_half_even x = round_half_even y.
Proof.
  intros H. unfold round_half_even.
  rewrite (Qfloor_comp x y H).
  replace (x - inject_Z (Qfloor y) ?= 1 # 2)%Q with (y - inject_Z (Qfloor y) ?= 1 # 2)%Q;
    [reflexivity|].
  apply Qcompare_comp; [|apply Qeq_refl].
  apply Qplus_comp; [apply Qeq_sym; exact H | apply Qeq_refl].
Qed.

Lemma round1_compat (x y : Q) : (x == y)%Q -> round1 x = round1 y.
Proof.
  intros H. unfold round1. f_equal. f_equal.
  apply round_half_even_compat. apply Qmult_comp; [exact H | apply Qeq_refl].
Qed.

(** C8.  In every state a run of the manager reaches from positive clock
    readings, [get_state] returns normally with the state's entries, with
    [progress.percentage] = [round(100 * len(completed_tasks) /
    total_tasks, 1)] where [total_tasks] is 4 (so 25.0 for one completed
    task), and with [timing.estimated_completion] = [now + (elapsed /
    current_step) * (total_tasks - current_step)] when [start_time],
    [current_task_start] and [current_step > 0] are all set, and [None]
    otherwise. *)
Theorem get_state_progress_and_estimate (t0 : Q) (ops : list (sm_op * Q)) (m : manager)
  (Ht0 : (0 < t0)%Q) (Hops : Forall (fun o => (0 < snd o)%Q) ops)
  (Hrun : run ops (new_manager t0) = Done m) (t_elapsed t_now : Q) :
  exists snap,
    get_state t_elapsed t_now m = Ok snap
    /\ snap_state snap = state m
    /\ total_tasks (progress_of (state m)) = 4
    /\ percentage snap
       = round1 (100 * inject_Z (Z.of_nat (length (completed_tasks (progress_of (state m)))))
                 / inject_Z (total_tasks (progress_of (state m))))
    /\ (length (completed_tasks (progress_of (state m))) = 1%nat -> (percentage snap == 25)%Q)
    /\ estimated_completion snap
       = match start_time (timing_of (state m)), current_task_start (timing_of (state m)) with
         | Some st, Some _ =>
             if 0 <? current_step (progress_of (state m)) then
               Some (t_now + ((t_elapsed - st) / inject_Z (current_step (progress_of (state m))))
                             * inject_Z (total_tasks (progress_of (state m))
                                         - current_step (progress_of (state m))))%Q
             else None
         | _, _ => None
         end.
Proof.
  destruct (inv_core_reachable _ _ _ Hrun) as (_ & _ & Htot & _).
  destruct (timing_pos_run _ _ _ Hops (timing_pos_new t0) Hrun) as [Hs Hc].
  unfold get_state. rewrite Htot. simpl.
  eexists. split; [reflexivity|].
  split; [reflexivity|]. split; [reflexivity|].
  split; [|split].
  - apply round1_compat. unfold Qdiv. ring.
  - intros ->. vm_compute. reflexivity.
  - rewrite (set_and_truthy_pos _ Hs), (set_and_truthy_pos _ Hc).
    destruct (start_time (timing_of (state m))) as [st|];
      destruct (current_task_start (timing_of (state m))) as [ct|];
      reflexivity.
Qed.

Lemma get_state_progress_and_estimate_witness :
  exists m, run [(OpStartTime, 2%Q); (OpTask (Some "scrape_leads"%string), 3%Q);
                 (OpCompleted "scrape_leads"%string, 4%Q)] (new_manager 1) = Done m
  /\ (0 < 1)%Q
  /\ Forall (fun o => (0 < snd o)%Q)
       [(OpStartTime, 2%Q); (OpTask (Some "scrape_leads"%string), 3%Q);
        (OpCompleted "scrape_leads"%string, 4%Q)]
  /\ exists snap,
    get_state 5 6 m = Ok snap
    /\ snap_state snap = state m
    /\ total_tasks (progress_of (state m)) = 4
    /\ percentage snap
       = round1 (100 * inject_Z (Z.of_nat (length (completed_tasks (progress_of (state m)))))
                 / inject_Z (total_tasks (progress_of (state m))))
    /\ (length (completed_tasks (progress_of (state m))) = 1%nat -> (percentage snap == 25)%Q)
    /\ estimated_completion snap
       = match start_time (timing_of (state m)), current_task_start (timing_of (state m)) with
         | Some st, Some _ =>
             if 0 <? current_step (progress_of (state m)) then
               Some (6 + ((5 - st) / inject_Z (current_step (progress_of (state m))))
                         * inject_Z (total_tasks (progress_of (state m))
                                     - current_step (progress_of (state m))))%Q
             else None
         | _, _ => None
         end.
Proof.
  eexists. split; [reflexivity|].
  split; [vm_compute; reflexivity|].
  split; [repeat constructor|].
  apply (get_state_progress_and_estimate 1
           [(OpStartTime, 2%Q); (OpTask (Some "scrape_leads"%string), 3%Q);
            (OpCompleted "scrape_leads"%string, 4%Q)]);
    [vm_compute; reflexivity | repeat constructor | reflexivity].
Defined.

(* ------------------------------------------------------------------ *)
(** ** Handlers that return *)

Lemma hreturns_bind {A B : Type} (m : hm A) (k : A -> hm B) :
  hreturns m -> (forall a, hreturns (k a)) -> hreturns (hbind m k).
Proof.
  intros Hm Hk h. destruct (Hm h) as (a & h1 & E).
  destruct (Hk a h1) as (b & h2 & E2).
  exists b, h2. unfold hbind. rewrite E. exact E2.
Qed.

Lemma hreturns_lift_bind {A B : Type} (a : A) (k : A -> hm B) :
  hreturns (k a) -> hreturns (hbind (hlift (Ok a)) k).
Proof. intros H h. exact (H h). Qed.

Lemma hreturns_ret {A : Type} (a : A) : hreturns (hret a).
Proof. intros h. eexists; eexists; reflexivity. Qed.

Lemma hreturns_returned {A : Type} (a : A) : hreturns (Returned a).
Proof. intros h. eexists; eexists; reflexivity. Qed.

Lemma hreturns_sm op : hreturns (sm op).
Proof. intros h. eexists; eexists; reflexivity. Qed.

Lemma hreturns_now : hreturns now.
Proof. intros h. eexists; eexists; reflexivity. Qed.

Lemma hreturns_emit x : hreturns (emit x).
Proof. intros h. eexists; eexists; reflexivity. Qed.

Lemma hreturns_set_agent_time k v : hashable k = true -> hreturns (set_agent_time k v).
Proof. intros Hk h. unfold set_agent_time. rewrite Hk. eexists; eexists; reflexivity. Qed.

Lemma hreturns_pop_agent_time k : hashable k = true -> hreturns (pop_agent_time k).
Proof.
  intros Hk h. unfold pop_agent_time. rewrite Hk.
  destruct (key_pop k (agent_start_times h)). eexists; eexists; reflexivity.
Qed.

Lemma hreturns_set_task_time k v : hashable k = true -> hreturns (set_task_time k v).
Proof. intros Hk h. unfold set_task_time. rewrite Hk. eexists; eexists; reflexivity. Qed.

Lemma hreturns_pop_task_time k : hashable k = true -> hreturns (pop_task_time k).
Proof.
  intros Hk h. unfold pop_task_time. rewrite Hk.
  destruct (key_pop k (task_start_times h)). eexists; eexists; reflexivity.
Qed.

Lemma get2_field_ok event outer inner d :
  field_ok event outer inner = true ->
  get2 event outer inner d = Ok d \/ exists r, get2 event outer inner d = Ok (PStr r).
Proof.
  unfold field_ok, get2, dict_get, call_get.
  destruct (lookup outer event) as [v|]; [|left; reflexivity].
  destruct v; try discriminate. unfold dict_get.
  destruct (lookup inner kvs) as [w|]; [|left; reflexivity].
  destruct w; try discriminate. intros _. right. eauto.
Qed.

Lemma extract_task_key_str (s : string) : exists k, extract_task_key (PStr s) = Ok k.
Proof. eexists. reflexivity. Qed.

Ltac hprim :=
  first
    [ apply hreturns_ret
    | apply hreturns_returned
    | apply hreturns_sm
    | apply hreturns_now
    | apply hreturns_emit
    | apply hreturns_set_agent_time; reflexivity
    | apply hreturns_pop_agent_time; reflexivity
    | apply hreturns_set_task_time; reflexivity
    | apply hreturns_pop_task_time; reflexivity ].

Ltac hstep :=
  cbv beta iota;
  lazymatch goal with
  | |- hreturns (hbind (hlift (Ok _)) _) => apply hreturns_lift_bind
  | |- hreturns (hbind _ _) => apply hreturns_bind; [hprim | intros ?]
  | |- _ => hprim
  end.

Lemma hreturns_crew_start event : hreturns (handle_crew_start event).
Proof. unfold handle_crew_start. repeat hstep. Qed.

Lemma hreturns_crew_end event :
  has_key "result" event = false -> hreturns (handle_crew_end event).
Proof. intros H. unfold handle_crew_end. rewrite H. repeat hstep. Qed.

Lemma hreturns_agent_start event :
  field_ok event "agent" "role" = true -> hreturns (handle_agent_start event).
Proof.
  intros H. unfold handle_agent_start.
  destruct (get2_field_ok event "agent" "role" (PStr "Unknown Agent") H) as [E|[r E]];
    rewrite E; repeat hstep.
Qed.

Lemma hreturns_agent_end event :
  field_ok event "agent" "role" = true -> hreturns (handle_agent_end event).
Proof.
  intros H. unfold handle_agent_end.
  destruct (get2_field_ok event "agent" "role" (PStr "Unknown Agent") H) as [E|[r E]];
    rewrite E; repeat hstep.
Qed.

Lemma hreturns_task_start event :
  field_ok event "task" "description" = true -> hreturns (handle_task_start event).
Proof.
  intros H. unfold handle_task_start.
  destruct (get2_field_ok event "task" "description" (PStr "Unknown Task") H) as [E|[r E]];
    rewrite E; hstep; cbv beta;
    [destruct (extract_task_key_str "Unknown Task") as [k Ek]
    |destruct (extract_task_key_str r) as [k Ek]];
    rewrite Ek; repeat hstep.
Qed.

Lemma hreturns_task_end_key event (k : string) :
  match lookup "output" event with Some o => truthy o = false | None => True end ->
  hreturns
    (task_key <- hlift (Ok k) ;;
     sm (add_completed_task task_key) ;;
     start <- pop_task_time (PStr task_key) ;;
     t <- now ;;
     emit (TaskMetric task_key (duration_since start t) false) ;;
     match lookup "output" event with
     | Some output =>
         if truthy output then
           let agent_name := extract_agent_name_from_task task_key in
           let execution_time := dict_get event "execution_time" PNone in
           sm_process agent_name task_key output true execution_time ;;
           _ <- hlift (parser_attr "parse_task_output") ;;
           hret tt
         else hret tt
     | None => hret tt
     end).
Proof.
  intros Ho. repeat hstep.
  destruct (lookup "output" event) as [o|].
  - rewrite Ho. hprim.
  - hprim.
Qed.

Lemma hreturns_task_end event :
  field_ok event "task" "description" = true ->
  match lookup "output" event with Some o => truthy o = false | None => True end ->
  hreturns (handle_task_end event).
Proof.
  intros H Ho. unfold handle_task_end.
  destruct (get2_field_ok event "task" "description" (PStr "Unknown Task") H) as [E|[r E]];
    rewrite E; hstep; cbv beta.
  - destruct (extract_task_key_str "Unknown Task") as [k Ek]. rewrite Ek.
    apply hreturns_task_end_key; exact Ho.
  - destruct (extract_task_key_str r) as [k Ek]. rewrite Ek.
    apply hreturns_task_end_key; exact Ho.
Qed.

Lemma hreturns_error_metrics (agent task : pyval) :
  task = PNone \/ (exists r, task = PStr r) ->
  hreturns
    ((if truthy agent then emit (AgentMetric agent 0 true) else hret tt) ;;
     if truthy task then
       task_key <- hlift (extract_task_key task) ;;
       emit (TaskMetric task_key 0 true)
     else hret tt).
Proof.
  intros Ht. apply hreturns_bind; [destruct (truthy agent); hprim | intros _].
  destruct Ht as [-> | [r ->]]; [hprim|].
  destruct (truthy (PStr r)); [|hprim].
  destruct (extract_task_key_str r) as [k Ek]. rewrite Ek. repeat hstep.
Qed.

Lemma hreturns_error event :
  payloads_ok event = true ->
  returns (py_str (dict_get event "error" (PStr "Unknown error occurred"))) ->
  hreturns (handle_error event).
Proof.
  intros H [s Es]. apply andb_prop in H as [Ha Ht]. unfold handle_error.
  cbv beta zeta. rewrite Es. do 3 hstep.
  destruct (get2_field_ok event "agent" "role" PNone Ha) as [Ea|[ra Ea]]; rewrite Ea;
    destruct (get2_field_ok event "task" "description" PNone Ht) as [Et|[rt Et]]; rewrite Et;
    do 2 hstep; apply hreturns_error_metrics; eauto.
Qed.

Lemma hreturns_unit (m : hm unit) (h : handlers) :
  hreturns m -> exists h', m h = Returned tt h'.
Proof. intros H. destruct (H h) as ([] & h' & E). eauto. Qed.

(** X1.  For every event whose ['agent'] and ['task'] entries, when
    present, are mappings whose ['role'] and ['description'], when present,
    are strings, and from every handler object: [handle_crew_start],
    [handle_agent_start], [handle_agent_end] and [handle_task_start] return
    normally, as do [handle_crew_end] on an event without ['result'],
    [handle_task_end] on an event without a truthy ['output'], and
    [handle_error] when [str()] of its error message returns. *)
Theorem handlers_return_on_wellformed_payloads (event : list (string * pyval))
  (Hp : payloads_ok event = true) (h : handlers) :
  (exists h', handle_crew_start event h = Returned tt h')
  /\ (has_key "result" event = false -> exists h', handle_crew_end event h = Returned tt h')
  /\ (exists h', handle_agent_start event h = Returned tt h')
  /\ (exists h', handle_agent_end event h = Returned tt h')
  /\ (exists h', handle_task_start event h = Returned tt h')
  /\ (match lookup "output" event with Some o => truthy o = false | None => True end ->
      exists h', handle_task_end event h = Returned tt h')
  /\ (returns (py_str (dict_get event "error" (PStr "Unknown error occurred"))) ->
      exists h', handle_error event h = Returned tt h').
Proof.
  pose proof Hp as Hp'. apply andb_prop in Hp' as [Ha Ht].
  split; [apply hreturns_unit, hreturns_crew_start|].
  split; [intros Hr; apply hreturns_unit, hreturns_crew_end, Hr|].
  split; [apply hreturns_unit, hreturns_agent_start, Ha|].
  split; [apply hreturns_unit, hreturns_agent_end, Ha|].
  split; [apply hreturns_unit, hreturns_task_start, Ht|].
  split; [intros Ho; apply hreturns_unit, hreturns_task_end; assumption|].
  intros Hs. apply hreturns_unit, hreturns_error; assumption.
Qed.

Lemma handlers_return_on_wellformed_payloads_witness :
  payloads_ok [("agent"%string, PDict [("role"%string, PStr "Lead Scraper")]);
                 ("task"%string, PDict [("description"%string, PStr "Scrape LinkedIn for leads")])] = true
  /\ ((exists h', handle_crew_start [("agent"%string, PDict [("role"%string, PStr "Lead Scraper")]);
                 ("task"%string, PDict [("description"%string, PStr "Scrape LinkedIn for leads")])] handlers0 = Returned tt h')
      /\ (has_key "result" [("agent"%string, PDict [("role"%string, PStr "Lead Scraper")]);
                 ("task"%string, PDict [("description"%string, PStr "Scrape LinkedIn for leads")])] = false ->
          exists h', handle_crew_end [("agent"%string, PDict [("role"%string, PStr "Lead Scraper")]);
                 ("task"%string, PDict [("description"%string, PStr "Scrape LinkedIn for leads")])] handlers0 = Returned tt h')
      /\ (exists h', handle_agent_start [("agent"%string, PDict [("role"%string, PStr "Lead Scraper")]);
                 ("task"%string, PDict [("description"%string, PStr "Scrape LinkedIn for leads")])] handlers0 = Returned tt h')
      /\ (exists h', handle_agent_end [("agent"%string, PDict [("role"%string, PStr "Lead Scraper")]);
                 ("task"%string, PDict [("description"%string, PStr "Scrape LinkedIn for leads")])] handlers0 = Returned tt h')
      /\ (exists h', handle_task_start [("agent"%string, PDict [("role"%string, PStr "Lead Scraper")]);
                 ("task"%string, PDict [("description"%string, PStr "Scrape LinkedIn for leads")])] handlers0 = Returned tt h')
      /\ (match lookup "output" [("agent"%string, PDict [("role"%string, PStr "Lead Scraper")]);
                 ("task"%string, PDict [("description"%string, PStr "Scrape LinkedIn for leads")])] with Some o => truthy o = false | None => True end ->
          exists h', handle_task_end [("agent"%string, PDict [("role"%string, PStr "Lead Scraper")]);
                 ("task"%string, PDict [("description"%string, PStr "Scrape LinkedIn for leads")])] handlers0 = Returned tt h')
      /\ (returns (py_str (dict_get [("agent"%string, PDict [("role"%string, PStr "Lead Scraper")]);
                 ("task"%string, PDict [("description"%string, PStr "Scrape LinkedIn for leads")])] "error" (PStr "Unknown error occurred"))) ->
          exists h', handle_error [("agent"%string, PDict [("role"%string, PStr "Lead Scraper")]);
                 ("task"%string, PDict [("description"%string, PStr "Scrape LinkedIn for leads")])] handlers0 = Returned tt h')).
Proof.
  split; [reflexivity|].
  apply handlers_return_on_wellformed_payloads. reflexivity.
Defined.

(** C1 (code bug).  [AnalyticsParser] defines neither
    [extract_analytics_from_result] nor [parse_task_output], and no handler
    catches exceptions.  [handle_crew_end] raises [AttributeError] on every
    event with a ['result'], after its four state updates (status
    completed; agent, task and tool cleared).  [handle_task_end] never
    returns on an event with a string or missing task description and a
    truthy ['output']: after recording the completed task and its metric,
    it raises [AttributeError] once [process_agent_output] has returned,
    and hangs when [process_agent_output] deadlocks. *)
Theorem handlers_missing_parser_methods :
  (forall (event : list (string * pyval)) (h : handlers),
     has_key "result" event = true ->
     handle_crew_end event h
     = Raised AttributeError
         (with_manager h
            (update_current_tool None (clock h)
               (update_current_task None (clock h)
                  (update_current_agent PNone (clock h)
                     (update_workflow_status "completed" (clock h) (state_manager h)))))))
  /\ (forall (event : list (string * pyval)) (h : handlers) (o : pyval),
       field_ok event "task" "description" = true ->
       lookup "output" event = Some o -> truthy o = true ->
       exists k d h1,
         state_manager h1 = add_completed_task k (clock h) (state_manager h)
         /\ metrics h1 = metrics h ++ [TaskMetric k d false]
         /\ clock h1 = clock h
         /\ ((exists m', process_agent_output (extract_agent_name_from_task k) k o true None
                           (dict_get event "execution_time" PNone) (clock h1) (state_manager h1)
                         = Done m'
                 /\ handle_task_end event h = Raised AttributeError (with_manager h1 m'))
             \/ (process_agent_output (extract_agent_name_from_task k) k o true None
                   (dict_get event "execution_time" PNone) (clock h1) (state_manager h1)
                 = Deadlock
                 /\ handle_task_end event h = Hung))).
Proof.
  split.
  - intros event h Hr. unfold handle_crew_end. cbv [hbind sm]. rewrite Hr.
    reflexivity.
  - intros event h o Ht Ho To. unfold handle_task_end.
    assert (Hk : exists r, get2 event "task" "description" (PStr "Unknown Task") = Ok (PStr r)).
    { destruct (get2_field_ok event "task" "description" (PStr "Unknown Task") Ht)
        as [E|[r E]]; eauto. }
    destruct Hk as [r Er]. destruct (extract_task_key_str r) as [k Ek].
    cbv [hbind hlift]. rewrite Er, Ek.
    cbv [sm pop_task_time now emit with_manager]. cbn [hashable].
    rewrite Ho, To. cbv [sm_process].
    cbn [state_manager agent_start_times task_start_times metrics clock].
    destruct (key_pop (PStr k) (task_start_times h)) as [st d0].
    cbv beta iota zeta.
    cbn [state_manager agent_start_times task_start_times metrics clock].
    eexists k, _,
      (mkHandlers (add_completed_task k (clock h) (state_manager h)) (agent_start_times h) d0
         (metrics h ++ [TaskMetric k (duration_since st (clock h)) false]) (clock h)).
    cbn [state_manager metrics clock].
    split; [reflexivity|]. split; [reflexivity|]. split; [reflexivity|].
    destruct (process_agent_output _ _ _ _ _ _ _ _) as [m'|];
      [left; exists m'|right]; (split; [reflexivity|]); reflexivity.
Qed.

(** C1 fails: [handle_crew_end] with a ['result'] and [handle_task_end]
    with a truthy ['output'] raise [AttributeError], and so do
    [handle_agent_start] on an ['agent'] of [None] ([None.get]) and
    [handle_task_start] on a task description that is not a string
    ([.lower()]). *)
Lemma handlers_let_exceptions_escape :
  handle_crew_end [("result"%string, PStr "done")] handlers0
  = Raised AttributeError
      (mkHandlers
         (mkManager
            (mkState "completed" PNone None None (mkProgress [] 4 0)
               [("leads_found"%string, PInt 0)] (mkTiming None None) [] 2)
            wa_default)
         [] [] [] 2)
  /\ handle_task_end
       [("task"%string, PDict [("description"%string, PStr "Scrape LinkedIn for leads")]);
        ("output"%string, PStr "Found 12 leads")] handlers0
     = Raised AttributeError
         (mkHandlers
            (mkManager
               (mkState "idle" PNone None None
                  (mkProgress ["Lead Scraping"%string] 4 0)
                  [("leads_found"%string, PInt 1)] (mkTiming None None) [] 2)
               (mkWA (PInt 1) 0 None 0))
            [] [] [TaskMetric "scrape_leads" 0 false] 2)
  /\ handle_agent_start [("agent"%string, PNone)] handlers0 = Raised AttributeError handlers0
  /\ handle_task_start [("task"%string, PDict [("description"%string, PInt 3)])] handlers0
     = Raised AttributeError handlers0.
Proof. repeat split; vm_compute; reflexivity. Qed.

(* ------------------------------------------------------------------ *)
(** ** Runs of the UI listener before [on_workflow_start] *)

Lemma on_task_complete_total_zero (task_name : string) (success : bool) (s : ui_state) :
  ui_total_tasks (ui_progress_of s) = 0 ->
  exists s', on_task_complete task_name success s = Ok s'
    /\ ui_percentage (ui_progress_of s') = ui_percentage (ui_progress_of s)
    /\ ui_total_tasks (ui_progress_of s') = 0
    /\ (success = true -> In task_name (ui_completed_tasks (ui_progress_of s'))).
Proof.
  intros H0. unfold on_task_complete. simpl.
  destruct success; simpl.
  - destruct (str_mem task_name (ui_completed_tasks (ui_progress_of s))) eqn:Em; simpl;
      rewrite H0; simpl; eexists; (split; [reflexivity|]); simpl;
      (split; [reflexivity|]); (split; [first [assumption | reflexivity]|]); intros _.
    + unfold str_mem in Em. apply existsb_exists in Em as [x [Hx Ex]].
      apply String.eqb_eq in Ex. subst x. exact Hx.
    + apply in_or_app. right. left. reflexivity.
  - rewrite H0. simpl. eexists. split; [reflexivity|].
    split; [reflexivity|]. split; [assumption|]. discriminate.
Qed.

Lemma ui_step_total_zero (op : ui_op) (s s' : ui_state) :
  ui_total_tasks (ui_progress_of s) = 0 -> ui_step op s = Ok s' ->
  ui_total_tasks (ui_progress_of s') = 0.
Proof.
  intros H0 H. destruct op; simpl in H;
    try (injection H as <-; simpl; first [assumption | reflexivity]).
  - destruct (on_task_complete_total_zero task_name success s H0) as (s2 & E & _ & Ht & _).
    rewrite E in H. injection H as <-. exact Ht.
  - injection H as <-. unfold ui_update_analytics.
    destruct (lookup "leads_found" analytics_data); exact H0.
Qed.

Lemma ui_run_total_zero (ops : list ui_op) (s s' : ui_state) :
  ui_total_tasks (ui_progress_of s) = 0 -> ui_run ops s = Ok s' ->
  ui_total_tasks (ui_progress_of s') = 0.
Proof.
  revert s; induction ops as [|op t IH]; intros s H0 H; simpl in H.
  - injection H as <-. exact H0.
  - destruct (ui_step op s) as [s1|e] eqn:E; simpl in H; [|discriminate].
    exact (IH s1 (ui_step_total_zero _ _ _ H0 E) H).
Qed.

(** C10.  In every state the listener reaches from [__init__] through
    calls other than [on_workflow_start], [total_tasks] is 0, and
    [on_task_complete] returns normally there: the percentage is not
    recomputed (the [total > 0] guard), [total_tasks] stays 0, and a task
    completed with [success] true is in [completed_tasks]. *)
Theorem on_task_complete_before_workflow_start (ops : list ui_op) (s : ui_state)
  (Hrun : ui_run ops ui_init = Ok s) (task_name : string) (success : bool) :
  ui_total_tasks (ui_progress_of s) = 0
  /\ exists s', on_task_complete task_name success s = Ok s'
       /\ ui_percentage (ui_progress_of s') = ui_percentage (ui_progress_of s)
       /\ ui_total_tasks (ui_progress_of s') = 0
       /\ (success = true -> In task_name (ui_completed_tasks (ui_progress_of s'))).
Proof.
  assert (H0 : ui_total_tasks (ui_progress_of s) = 0)
    by exact (ui_run_total_zero ops ui_init s eq_refl Hrun).
  split; [exact H0|]. apply on_task_complete_total_zero, H0.
Qed.

Lemma on_task_complete_before_workflow_start_witness :
  exists s, ui_run [UiTaskStart "scrape_leads"; UiWorkflowComplete true] ui_init = Ok s
  /\ ui_total_tasks (ui_progress_of s) = 0
  /\ exists s', on_task_complete "scrape_leads" true s = Ok s'
       /\ ui_percentage (ui_progress_of s') = ui_percentage (ui_progress_of s)
       /\ ui_total_tasks (ui_progress_of s') = 0
       /\ (true = true -> In "scrape_leads"%string (ui_completed_tasks (ui_progress_of s'))).
Proof.
  eexists. split; [reflexivity|].
  apply (on_task_complete_before_workflow_start [UiTaskStart "scrape_leads"; UiWorkflowComplete true]).
  reflexivity.
Defined.

(* ------------------------------------------------------------------ *)
(** ** Further properties of the handlers, the manager, the listener and the runner *)

Lemma key_pop_key_set (k : pyval) (v : Q) (d : list (pyval * Q)) :
  py_key_eqb k k = true ->
  key_pop k (key_set k v d) = (Some v, snd (key_pop k d)).
Proof.
  intros Hk. induction d as [|[k' v'] t IH]; simpl.
  - rewrite Hk. reflexivity.
  - destruct (py_key_eqb k k') eqn:E; simpl; rewrite ?E; [reflexivity|].
    rewrite IH. destruct (key_pop k t); reflexivity.
Qed.

Lemma duration_since_set (s t : Q) :
  ~ (s == 0)%Q -> duration_since (Some s) t = (t - s)%Q.
Proof.
  intros H. unfold duration_since, set_and_truthy.
  destruct (Qeq_bool s 0) eqn:E; [apply Qeq_bool_iff in E; contradiction|reflexivity].
Qed.

(** X2.  When an event's [agent.role] is a string and the clock is set
    (non-zero), [handle_agent_start] followed by [handle_agent_end] for the
    same event returns from both calls.  The end call emits one agent metric:
    the role, the time since the start call, and no error.  It removes the
    role's entry from the agent start-time dict, so the dict is the one
    before the start call with that role removed. *)
Theorem agent_start_end_duration (event : list (string * pyval)) (r : string)
  (h : handlers) (t2 : Q) :
  get2 event "agent" "role" (PStr "Unknown Agent") = Ok (PStr r) ->
  ~ (clock h == 0)%Q ->
  exists h1 h2,
    handle_agent_start event h = Returned tt h1
    /\ handle_agent_end event (set_clock h1 t2) = Returned tt h2
    /\ metrics h2 = metrics h ++ [AgentMetric (PStr r) (t2 - clock h) false]
    /\ agent_start_times h2 = snd (key_pop (PStr r) (agent_start_times h)).
Proof.
  intros Hg Hc.
  unfold handle_agent_start, handle_agent_end, hbind, hlift, sm, now, emit,
    set_agent_time, pop_agent_time.
  rewrite Hg. cbn [hashable with_manager state_manager agent_start_times
    task_start_times metrics clock set_clock].
  do 2 eexists. split; [reflexivity|].
  cbn [agent_start_times state_manager task_start_times metrics clock].
  rewrite key_pop_key_set by apply String.eqb_refl.
  rewrite duration_since_set by exact Hc.
  split; [reflexivity|]. split; reflexivity.
Qed.

Lemma agent_start_end_duration_witness :
  get2 ev_agent "agent" "role" (PStr "Unknown Agent") = Ok (PStr "scraper_agent")
  /\ ~ (clock handlers0 == 0)%Q
  /\ exists h1 h2,
       handle_agent_start ev_agent handlers0 = Returned tt h1
       /\ handle_agent_end ev_agent (set_clock h1 5) = Returned tt h2
       /\ metrics h2 = metrics handlers0
                       ++ [AgentMetric (PStr "scraper_agent") (5 - clock handlers0) false]
       /\ agent_start_times h2 = snd (key_pop (PStr "scraper_agent") (agent_start_times handlers0)).
Proof.
  split; [reflexivity|]. split; [intros E; vm_compute in E; discriminate E|].
  apply agent_start_end_duration; [reflexivity|intros E; vm_compute in E; discriminate E].
Defined.

Lemma str_mem_In (x : string) (l : list string) : str_mem x l = true <-> In x l.
Proof.
  unfold str_mem. rewrite existsb_exists. split.
  - intros (y & Hy & E). apply String.eqb_eq in E. subst. exact Hy.
  - intros Hx. exists x. split; [exact Hx|apply String.eqb_refl].
Qed.

Lemma add_completed_task_in (n : string) (t : Q) (m : manager) :
  In (str_get TASK_NAMES n n) (completed_tasks (progress_of (state (add_completed_task n t m)))).
Proof.
  unfold add_completed_task, on_state. set (c := str_get TASK_NAMES n n). simpl.
  destruct (str_mem c (completed_tasks (progress_of (state m)))) eqn:E.
  - apply str_mem_In in E. exact E.
  - simpl. apply in_or_app. right. left. reflexivity.
Qed.

(** X3.  When an event's [task.description] is a string, its ['output'] is
    missing or falsy, and the clock is set, [handle_task_start] followed by
    [handle_task_end] returns from both calls.  The end call emits one task
    metric for the extracted task key, with the time since the start call
    and no error.  It removes the key's start time, and the completed-task
    list then holds the key's [TASK_NAMES] entry (the key itself when it has
    none). *)
Theorem task_start_end_duration (event : list (string * pyval)) (d : string)
  (h : handlers) (t2 : Q) :
  get2 event "task" "description" (PStr "Unknown Task") = Ok (PStr d) ->
  truthy (dict_get event "output" PNone) = false ->
  ~ (clock h == 0)%Q ->
  exists k h1 h2,
    extract_task_key (PStr d) = Ok k
    /\ handle_task_start event h = Returned tt h1
    /\ handle_task_end event (set_clock h1 t2) = Returned tt h2
    /\ metrics h2 = metrics h ++ [TaskMetric k (t2 - clock h) false]
    /\ task_start_times h2 = snd (key_pop (PStr k) (task_start_times h))
    /\ In (str_get TASK_NAMES k k) (completed_tasks (progress_of (state (state_manager h2)))).
Proof.
  intros Hg Ho Hc. destruct (extract_task_key_str d) as [k Hk].
  exists k. do 2 eexists. split; [exact Hk|].
  unfold handle_task_start, handle_task_end, hbind, hlift, sm, now, emit,
    set_task_time, pop_task_time.
  rewrite Hg, Hk. cbn [hashable with_manager state_manager agent_start_times
    task_start_times metrics clock set_clock].
  split; [reflexivity|].
  cbn [agent_start_times state_manager task_start_times metrics clock].
  rewrite key_pop_key_set by apply String.eqb_refl.
  rewrite duration_since_set by exact Hc.
  unfold dict_get in Ho.
  destruct (lookup "output" event) as [o|].
  - rewrite Ho. split; [reflexivity|]. split; [reflexivity|]. split; [reflexivity|].
    apply add_completed_task_in.
  - split; [reflexivity|]. split; [reflexivity|]. split; [reflexivity|].
    apply add_completed_task_in.
Qed.

Lemma task_start_end_duration_witness :
  get2 ev_task "task" "description" (PStr "Unknown Task") = Ok (PStr "Scrape leads from the web")
  /\ truthy (dict_get ev_task "output" PNone) = false
  /\ ~ (clock handlers0 == 0)%Q
  /\ exists k h1 h2,
       extract_task_key (PStr "Scrape leads from the web") = Ok k
       /\ handle_task_start ev_task handlers0 = Returned tt h1
       /\ handle_task_end ev_task (set_clock h1 5) = Returned tt h2
       /\ metrics h2 = metrics handlers0 ++ [TaskMetric k (5 - clock handlers0) false]
       /\ task_start_times h2 = snd (key_pop (PStr k) (task_start_times handlers0))
       /\ In (str_get TASK_NAMES k k) (completed_tasks (progress_of (state (state_manager h2)))).
Proof.
  split; [reflexivity|]. split; [reflexivity|].
  split; [intros E; vm_compute in E; discriminate E|].
  apply task_start_end_duration; [reflexivity|reflexivity|intros E; vm_compute in E; discriminate E].
Defined.

(** handler computations that keep a property of the state manager, or
    leave it as it is *)

Lemma hpres_ret {A : Type} (P : manager -> Prop) (a : A) : hpres P (hret a).
Proof. intros h H. exact H. Qed.

Lemma hpres_bind {A B : Type} (P : manager -> Prop) (m : hm A) (k : A -> hm B) :
  hpres P m -> (forall a, hpres P (k a)) -> hpres P (hbind m k).
Proof.
  intros Hm Hk h H. specialize (Hm h H). unfold hbind.
  destruct (m h) as [a h1|e h1|]; [exact (Hk a h1 Hm)|exact Hm|exact I].
Qed.

Lemma hpres_lift_bind {A B : Type} (P : manager -> Prop) (r : res A) (k : A -> hm B) :
  (forall a, r = Ok a -> hpres P (k a)) -> hpres P (hbind (hlift r) k).
Proof.
  intros Hk h H. unfold hbind, hlift.
  destruct r as [a|e]; [exact (Hk a eq_refl h H)|exact H].
Qed.

Lemma hpres_of_keeps {A : Type} (P : manager -> Prop) (m : hm A) : hkeeps m -> hpres P m.
Proof.
  intros Hm h H. specialize (Hm h).
  destruct (m h); [rewrite Hm; exact H|rewrite Hm; exact H|exact I].
Qed.

Lemma hpres_sm (P : manager -> Prop) op :
  (forall t m, P m -> P (op t m)) -> hpres P (sm op).
Proof. intros Hop h H. exact (Hop _ _ H). Qed.

Lemma hpres_process (P : manager -> Prop) a tn o sc et :
  (forall t m m', P m -> process_agent_output a tn o sc None et t m = Done m' -> P m') ->
  hpres P (sm_process a tn o sc et).
Proof.
  intros Hp h H. unfold sm_process.
  destruct (process_agent_output a tn o sc None et (clock h) (state_manager h)) as [m'|] eqn:E;
    [exact (Hp _ _ _ H E)|exact I].
Qed.

Lemma hkeeps_ret {A : Type} (a : A) : hkeeps (hret a).
Proof. intros h. reflexivity. Qed.

Lemma hkeeps_now : hkeeps now.
Proof. intros h. reflexivity. Qed.

Lemma hkeeps_emit x : hkeeps (emit x).
Proof. intros h. reflexivity. Qed.

Lemma hkeeps_set_agent_time k v : hkeeps (set_agent_time k v).
Proof. intros h. unfold set_agent_time. destruct (hashable k); reflexivity. Qed.

Lemma hkeeps_pop_agent_time k : hkeeps (pop_agent_time k).
Proof.
  intros h. unfold pop_agent_time.
  destruct (hashable k); [destruct (key_pop k (agent_start_times h))|]; reflexivity.
Qed.

Lemma hkeeps_set_task_time k v : hkeeps (set_task_time k v).
Proof. intros h. unfold set_task_time. destruct (hashable k); reflexivity. Qed.

Lemma hkeeps_pop_task_time k : hkeeps (pop_task_time k).
Proof.
  intros h. unfold pop_task_time.
  destruct (hashable k); [destruct (key_pop k (task_start_times h))|]; reflexivity.
Qed.

Lemma hkeeps_bind {A B : Type} (m : hm A) (k : A -> hm B) :
  hkeeps m -> (forall a, hkeeps (k a)) -> hkeeps (hbind m k).
Proof.
  intros Hm Hk h. specialize (Hm h). unfold hbind.
  destruct (m h) as [a h1|e h1|]; [|exact Hm|contradiction].
  specialize (Hk a h1). destruct (k a h1); try (rewrite Hk; exact Hm). exact Hk.
Qed.

Lemma hkeeps_lift_bind {A B : Type} (r : res A) (k : A -> hm B) :
  (forall a, r = Ok a -> hkeeps (k a)) -> hkeeps (hbind (hlift r) k).
Proof.
  intros Hk h. unfold hbind, hlift.
  destruct r as [a|e]; [exact (Hk a eq_refl h)|reflexivity].
Qed.

Ltac hkeep :=
  cbv beta iota;
  lazymatch goal with
  | |- hkeeps (hbind (hlift _) _) => apply hkeeps_lift_bind; intros ? ?
  | |- hkeeps (hbind _ _) => apply hkeeps_bind; [|intros ?]
  | |- hkeeps (if ?b then _ else _) => destruct b
  | |- _ =>
      first [ apply hkeeps_ret | apply hkeeps_now | apply hkeeps_emit
            | apply hkeeps_set_agent_time | apply hkeeps_pop_agent_time
            | apply hkeeps_set_task_time | apply hkeeps_pop_task_time ]
  end.

Ltac hp :=
  cbv beta iota;
  lazymatch goal with
  | |- hpres _ (hbind (hlift _) _) => apply hpres_lift_bind; intros ? ?
  | |- hpres _ (hbind _ _) => apply hpres_bind; [|intros ?]
  | |- hpres _ (hret _) => apply hpres_ret
  | |- hpres _ (sm _) => apply hpres_sm; intros ? ? ?
  | |- hpres _ (sm_process _ _ _ _ _) => apply hpres_process; intros ? ? ? ? ?
  | |- hpres _ _ => apply hpres_of_keeps; repeat hkeep
  end.

Lemma extract_task_key_in (d : pyval) (k : string) :
  extract_task_key d = Ok k -> In k task_keys.
Proof.
  unfold extract_task_key. destruct d; intros H; try discriminate.
  injection H as <-. cbv zeta.
  repeat match goal with |- context [if ?b then _ else _] => destruct b end;
    simpl; tauto.
Qed.

Lemma NoDup_snoc (x : string) (l : list string) :
  NoDup l -> ~ In x l -> NoDup (l ++ [x]).
Proof.
  induction 1 as [|a l Ha Hl IH]; intros Hx; simpl.
  - constructor; [intros []|constructor].
  - constructor.
    + intros Hin. apply in_app_or in Hin. destruct Hin as [Hin|[E|[]]].
      * contradiction.
      * subst. apply Hx. left. reflexivity.
    + apply IH. intros Hin. apply Hx. right. exact Hin.
Qed.

Lemma hinv_progress (m m' : manager) :
  progress_of (state m') = progress_of (state m) -> hinv m -> hinv m'.
Proof. unfold hinv. intros E. rewrite E. exact (fun H => H). Qed.

Lemma hinv_new (t0 : Q) : hinv (new_manager t0).
Proof.
  unfold hinv. simpl. split; [reflexivity|]. split; [constructor|].
  split; [intros x []|]. simpl. tauto.
Qed.

Lemma hinv_update_task (k : string) (t : Q) (m : manager) :
  In k task_keys -> hinv m -> hinv (update_current_task (Some k) t m).
Proof.
  intros Hk (H1 & H2 & H3 & H4).
  destruct Hk as [<-|[<-|[<-|[<-|[<-|[]]]]]];
    unfold hinv, update_current_task, on_state; simpl;
    repeat split; try assumption; simpl; tauto.
Qed.

Lemma hinv_add_completed (k : string) (t : Q) (m : manager) :
  In k task_keys -> hinv m -> hinv (add_completed_task k t m).
Proof.
  intros Hk (H1 & H2 & H3 & H4).
  unfold hinv, add_completed_task, on_state.
  set (c := str_get TASK_NAMES k k). simpl.
  destruct (str_mem c (completed_tasks (progress_of (state m)))) eqn:E; simpl.
  - tauto.
  - split; [exact H1|]. split.
    + apply NoDup_snoc; [exact H2|]. intros Hin. apply str_mem_In in Hin. congruence.
    + split; [|exact H4]. apply incl_app; [exact H3|].
      intros y [<-|[]]. unfold handler_completed_names, c.
      exact (in_map (fun k => str_get TASK_NAMES k k) task_keys k Hk).
Qed.

Lemma process_progress a tn o sc em et t m m' :
  process_agent_output a tn o sc em et t m = Done m' ->
  progress_of (state m') = progress_of (state m).
Proof.
  intros H. destruct (process_cases _ _ _ _ _ _ _ _ _ H) as [->|(r & na & v & _ & _ & _ & ->)];
    reflexivity.
Qed.

Ltac hinv_op :=
  match goal with
  | Hm : hinv ?m |- hinv _ => apply (hinv_progress m); [reflexivity|exact Hm]
  end.

Lemma hinv_handle (e : h_event) : hpres hinv (handle e).
Proof.
  destruct e as [ev|ev|ev|ev|ev|ev|ev]; simpl.
  - unfold handle_crew_start. repeat hp; hinv_op.
  - unfold handle_crew_end. repeat hp; hinv_op.
  - unfold handle_agent_start. repeat hp; hinv_op.
  - unfold handle_agent_end. repeat hp.
  - unfold handle_task_start. repeat hp.
    match goal with H : extract_task_key _ = Ok _ |- _ => apply extract_task_key_in in H end.
    apply hinv_update_task; assumption.
  - unfold handle_task_end.
    destruct (lookup "output" ev) as [o|]; [destruct (truthy o)|]; repeat hp;
      try (match goal with H : extract_task_key _ = Ok _ |- _ => apply extract_task_key_in in H end;
           apply hinv_add_completed; assumption).
    match goal with
    | Hm : hinv ?m, Hp : process_agent_output _ _ _ _ _ _ _ ?m = Done ?m' |- hinv ?m' =>
        apply (hinv_progress m); [exact (process_progress _ _ _ _ _ _ _ _ _ Hp)|exact Hm]
    end.
  - unfold handle_error. repeat hp; try hinv_op.
Qed.

Lemma hinv_h_run (evs : list (h_event * Q)) (h h' : handlers) :
  hinv (state_manager h) -> h_run evs h = Some h' -> hinv (state_manager h').
Proof.
  revert h; induction evs as [|[e t] rest IH]; intros h Hh Hr; simpl in Hr.
  - injection Hr as <-. exact Hh.
  - pose proof (hinv_handle e (set_clock h t) Hh) as He.
    destruct (handle e (set_clock h t)) as [a h1|x h1|]; [exact (IH h1 He Hr)|exact (IH h1 He Hr)|discriminate].
Qed.

(** X4.  Start from a fresh state manager and call the event handlers in
    any order, including calls that raise.  [current_step] is then always
    0, 1, 3 or 4, never 2, and ['Email Finding'] is never a completed task.
    The reason: [_extract_task_key] never returns ['find_lead_emails']. *)
Theorem handlers_never_enter_email_finding (evs : list (h_event * Q)) (t0 : Q)
  (h h' : handlers) :
  state_manager h = new_manager t0 ->
  h_run evs h = Some h' ->
  In (current_step (progress_of (state (state_manager h')))) [0; 1; 3; 4]
  /\ ~ In "Email Finding"%string (completed_tasks (progress_of (state (state_manager h')))).
Proof.
  intros H0 Hr.
  assert (Hi : hinv (state_manager h)) by (rewrite H0; apply hinv_new).
  destruct (hinv_h_run evs h h' Hi Hr) as (_ & _ & H3 & H4).
  split; [exact H4|]. intros Hin. specialize (H3 _ Hin).
  simpl in H3. repeat (destruct H3 as [H3|H3]; [discriminate|]). exact H3.
Qed.

Lemma handlers_never_enter_email_finding_witness :
  exists h', state_manager handlers0 = new_manager 1
  /\ h_run five_task_ends handlers0 = Some h'
  /\ In (current_step (progress_of (state (state_manager h')))) [0; 1; 3; 4]
  /\ ~ In "Email Finding"%string (completed_tasks (progress_of (state (state_manager h')))).
Proof.
  eexists. split; [reflexivity|]. split; [vm_compute; reflexivity|].
  apply (handlers_never_enter_email_finding five_task_ends 1 handlers0); [reflexivity|].
  vm_compute; reflexivity.
Defined.

Ltac qz :=
  unfold Qeq, Qdiv, Qinv, Qminus, Qplus, Qopp, Qmult, inject_Z; cbn [Qnum Qden];
  rewrite ?Pos.mul_1_l, ?Pos.mul_1_r; lia.

Lemma round1_inject_Z (z : Z) : (round1 (inject_Z z) == inject_Z z)%Q.
Proof.
  unfold round1.
  rewrite (round_half_even_compat (inject_Z z * 10) (inject_Z (10 * z))) by qz.
  unfold round_half_even. rewrite Qfloor_Z.
  assert (E : (inject_Z (10 * z) - inject_Z (10 * z) == 0)%Q) by qz.
  rewrite (Qcompare_comp _ _ E (1 # 2) (1 # 2) (Qeq_refl _)).
  replace (0 ?= 1 # 2)%Q with Lt by reflexivity. cbv iota.
  qz.
Qed.

Lemma get_state_hinv (te tn : Q) (m : manager) :
  hinv m ->
  exists snap, get_state te tn m = Ok snap
    /\ (percentage snap
        == inject_Z (25 * Z.of_nat (length (completed_tasks (progress_of (state m))))))%Q
    /\ (length (completed_tasks (progress_of (state m))) <= 5)%nat.
Proof.
  intros (H1 & H2 & H3 & _).
  unfold get_state. rewrite H1. cbn [Z.eqb bind].
  eexists. split; [reflexivity|]. cbn [percentage]. split.
  - rewrite (round1_compat _ (inject_Z (25 * Z.of_nat (length (completed_tasks (progress_of (state m))))))) by qz.
    apply round1_inject_Z.
  - exact (NoDup_incl_length H2 H3).
Qed.

(** X5.  Start from a fresh state manager and call the event handlers in
    any order.  [get_state] then returns a [progress.percentage] equal to
    25 times the number of completed tasks, which is at most 125.  The
    bound is reached: five [task_end] events, one for each task key, bring
    it to 125. *)
Theorem handlers_progress_percentage_bound :
  (forall (evs : list (h_event * Q)) (t0 te tn : Q) (h h' : handlers),
     state_manager h = new_manager t0 -> h_run evs h = Some h' ->
     exists snap, get_state te tn (state_manager h') = Ok snap
       /\ (percentage snap
           == inject_Z (25 * Z.of_nat (length (completed_tasks (progress_of (state (state_manager h')))))))%Q
       /\ (percentage snap <= 125)%Q)
  /\ (exists evs h', h_run evs handlers0 = Some h'
       /\ forall te tn, exists snap, get_state te tn (state_manager h') = Ok snap
            /\ (percentage snap == 125)%Q).
Proof.
  split.
  - intros evs t0 te tn h h' H0 Hr.
    assert (Hi : hinv (state_manager h)) by (rewrite H0; apply hinv_new).
    destruct (get_state_hinv te tn _ (hinv_h_run evs h h' Hi Hr)) as (snap & E & P & L).
    exists snap. split; [exact E|]. split; [exact P|].
    rewrite P. unfold Qle, inject_Z; cbn [Qnum Qden]. lia.
  - exists five_task_ends,
      (match h_run five_task_ends handlers0 with Some x => x | None => handlers0 end).
    split; [vm_compute; reflexivity|]. intros te tn.
    assert (Hi : hinv (state_manager handlers0)) by apply hinv_new.
    destruct (get_state_hinv te tn _
                (hinv_h_run five_task_ends handlers0 _ Hi (ltac:(vm_compute; reflexivity))))
      as (snap & E & P & _).
    exists snap. split; [exact E|]. rewrite P. vm_compute. reflexivity.
Qed.

Lemma update_current_task_completed (o : option string) (t : Q) (m : manager) :
  completed_tasks (progress_of (state (update_current_task o t m)))
  = completed_tasks (progress_of (state m)).
Proof.
  unfold update_current_task, on_state.
  destruct o as [n|]; [destruct (negb (n =? "")%string); [destruct (index_of n task_order)|]|];
    reflexivity.
Qed.

Lemma nodup_step op now m m' :
  sm_step op now m = Done m' ->
  NoDup (completed_tasks (progress_of (state m))) ->
  NoDup (completed_tasks (progress_of (state m'))).
Proof.
  intros H Hn. destruct op; simpl in H;
    try (injection H as <-; simpl; exact Hn).
  - injection H as <-. constructor.
  - injection H as <-. rewrite update_current_task_completed. exact Hn.
  - injection H as <-. unfold add_completed_task, on_state.
    set (c := str_get TASK_NAMES task_name task_name). simpl.
    destruct (str_mem c (completed_tasks (progress_of (state m)))) eqn:E; simpl; [exact Hn|].
    apply NoDup_snoc; [exact Hn|]. intros Hin. apply str_mem_In in Hin. congruence.
  - rewrite (process_progress _ _ _ _ _ _ _ _ _ H). exact Hn.
Qed.

(** X6.  In every state a [WorkflowStateManager] reaches, the completed-task
    list holds no entry twice. *)
Theorem completed_tasks_no_duplicates (t0 : Q) (ops : list (sm_op * Q)) (m : manager) :
  run ops (new_manager t0) = Done m -> NoDup (completed_tasks (progress_of (state m))).
Proof.
  assert (G : forall ops m0, NoDup (completed_tasks (progress_of (state m0))) ->
            run ops m0 = Done m -> NoDup (completed_tasks (progress_of (state m)))).
  { induction ops0 as [|[op now] t IH]; intros m0 Hn Hr; simpl in Hr.
    - injection Hr as <-. exact Hn.
    - destruct (sm_step op now m0) as [m1|] eqn:E; [|discriminate].
      exact (IH m1 (nodup_step _ _ _ _ E Hn) Hr). }
  intros Hr. apply (G ops (new_manager t0)); [constructor|exact Hr].
Qed.

Lemma completed_tasks_no_duplicates_witness :
  exists m, run [(OpCompleted "scrape_leads", 2%Q); (OpCompleted "scrape_leads", 3%Q);
                 (OpCompleted "save_data", 4%Q)] (new_manager 1) = Done m
  /\ NoDup (completed_tasks (progress_of (state m))).
Proof.
  eexists. split; [reflexivity|].
  apply (completed_tasks_no_duplicates 1
           [(OpCompleted "scrape_leads", 2%Q); (OpCompleted "scrape_leads", 3%Q);
            (OpCompleted "save_data", 4%Q)]).
  reflexivity.
Defined.

Lemma extract_analytics_str (a t s : string) (et : option flt) :
  exists na x, extract_analytics (mkRecord a t (PStr s) true None et) = Ok na
    /\ py_num (wa_leads_found na) = Some x.
Proof.
  unfold extract_analytics. cbn [rec_success rec_output_data negb orb].
  destruct (truthy (PStr s)); cbn [negb orb];
    [destruct (_ || _)|]; do 2 eexists; split; reflexivity.
Qed.

(** X7.  [reset_state] clears the state dict but keeps [self._analytics], so
    [get_analytics_summary] returns the same values before and after a
    reset.  After the reset and any further operations, a
    [process_agent_output] with [success] true on a text output returns:
    when its [execution_time] validates, it writes into
    [state['analytics']['leads_found']] a value no smaller than the
    [leads_found] held before the reset; when it does not, the manager is
    left unchanged. *)
Theorem reset_keeps_leads_model (t0 t1 : Q) (ops : list (sm_op * Q)) (m : manager) :
  run ops (new_manager t0) = Done m ->
  get_analytics_summary (reset_state t1 m) = get_analytics_summary m
  /\ forall (ops' : list (sm_op * Q)) (m2 : manager)
       (agent_name task_name s : string) (execution_time : pyval) (t2 : Q),
       run ops' (reset_state t1 m) = Done m2 ->
       exists m3,
         process_agent_output agent_name task_name (PStr s) true None execution_time t2 m2
           = Done m3
         /\ (returns (validate_opt_float execution_time) ->
             exists v, analytics (state m3) = [("leads_found"%string, v)]
               /\ summary_leads_found (get_analytics_summary m3) = v
               /\ leads_le (summary_leads_found (get_analytics_summary m)) v)
         /\ (forall e, validate_opt_float execution_time = Raise e -> m3 = m2).
Proof.
  intros Hrun. pose proof (inv_core_reachable _ _ _ Hrun) as Hi.
  assert (Hi1 : inv_core (reset_state t1 m))
    by exact (inv_core_step OpReset t1 m _ Hi eq_refl).
  split; [reflexivity|].
  intros ops' m2 a tn s et t2 Hrun2.
  pose proof (run_leads_le _ _ _ Hi1 Hrun2) as Hle12.
  destruct (inv_core_run _ _ _ Hi1 Hrun2) as ((q2 & Hq2 & Hq20) & _).
  unfold process_agent_output, make_record.
  destruct (validate_opt_float et) as [x|e] eqn:Ev; cbn [bind].
  - destruct (extract_analytics_str a tn s x) as (na & y & Ena & Hy). rewrite Ena.
    cbn [bind].
    assert (Hmax : exists v, py_max (wa_leads_found (model m2)) (wa_leads_found na) = Ok v).
    { unfold py_max. rewrite (py_gt_num _ _ _ _ Hy Hq2). eexists; reflexivity. }
    destruct Hmax as [v Hv]. rewrite Hv.
    destruct (py_max_num _ _ _ _ Hq2 (flt_le_refl_r _ _ Hq20) Hv) as (qv & Hqv & Hle).
    eexists. split; [reflexivity|]. split; [|intros e' He'; discriminate].
    intros _. exists v. split; [reflexivity|]. split; [reflexivity|].
    apply (leads_le_trans _ _ _ Hle12). exists q2, qv. auto.
  - eexists. split; [reflexivity|]. split; [intros [y Hy]; discriminate|].
    intros _ _. reflexivity.
Qed.

Lemma reset_keeps_leads_model_witness :
  exists m, run [(OpProcess "scraper_agent" "scrape_leads"
                    (PDict [("leads_found"%string, PInt 3)]) true None PNone, 2%Q)]
                (new_manager 1) = Done m
  /\ get_analytics_summary (reset_state 5 m) = get_analytics_summary m
  /\ forall (ops' : list (sm_op * Q)) (m2 : manager)
       (agent_name task_name s : string) (execution_time : pyval) (t2 : Q),
       run ops' (reset_state 5 m) = Done m2 ->
       exists m3,
         process_agent_output agent_name task_name (PStr s) true None execution_time t2 m2
           = Done m3
         /\ (returns (validate_opt_float execution_time) ->
             exists v, analytics (state m3) = [("leads_found"%string, v)]
               /\ summary_leads_found (get_analytics_summary m3) = v
               /\ leads_le (summary_leads_found (get_analytics_summary m)) v)
         /\ (forall e, validate_opt_float execution_time = Raise e -> m3 = m2).
Proof.
  eexists. split; [reflexivity|].
  apply (reset_keeps_leads_model 1 5
           [(OpProcess "scraper_agent" "scrape_leads"
               (PDict [("leads_found"%string, PInt 3)]) true None PNone, 2%Q)]).
  reflexivity.
Defined.

Lemma trunc_quarter (n : Z) : trunc (inject_Z n / inject_Z 4 * 100)%Q = 25 * n.
Proof.
  unfold trunc, Qdiv, Qmult, Qinv, inject_Z. cbn [Qnum Qden].
  rewrite ?Pos.mul_1_l, ?Pos.mul_1_r.
  replace (n * 1 * 100) with ((25 * n) * 4) by lia.
  apply Z.quot_mul. lia.
Qed.

Lemma ui_inv_progress (s s' : ui_state) :
  ui_progress_of s' = ui_progress_of s -> ui_inv s -> ui_inv s'.
Proof. unfold ui_inv. intros E. rewrite E. exact (fun H => H). Qed.

Lemma ui_inv_init : ui_inv ui_init.
Proof. split; [constructor|]. left. split; [reflexivity|]. left. reflexivity. Qed.

Lemma ui_inv_task_complete (task_name : string) (success : bool) (s s' : ui_state) :
  on_task_complete task_name success s = Ok s' -> ui_inv s -> ui_inv s'.
Proof.
  intros H (Hn & Hp). unfold on_task_complete in H. cbn [ui_progress_of] in H.
  set (p := ui_progress_of s) in *.
  assert (Hn' : NoDup (ui_completed_tasks (ui_progress_of
             (if success && negb (str_mem task_name (ui_completed_tasks p))
              then ui_set_progress (mkUi (ui_workflow_status s) (ui_current_agent s)
                     (if opt_str_eqb (ui_current_task s) task_name then None else ui_current_task s)
                     (ui_current_tool s) p (ui_leads_found s))
                     (mkUiProgress (ui_percentage p) (ui_completed_tasks p ++ [task_name])
                        (ui_total_tasks p))
              else mkUi (ui_workflow_status s) (ui_current_agent s)
                     (if opt_str_eqb (ui_current_task s) task_name then None else ui_current_task s)
                     (ui_current_tool s) p (ui_leads_found s))))).
  { destruct (success && negb (str_mem task_name (ui_completed_tasks p))) eqn:E; simpl; [|exact Hn].
    apply andb_true_iff in E as [_ E]. apply negb_true_iff in E.
    apply NoDup_snoc; [exact Hn|]. intros Hin. apply str_mem_In in Hin. congruence. }
  revert H Hn'.
  destruct (success && negb (str_mem task_name (ui_completed_tasks p))); cbn [ui_progress_of ui_set_progress ui_total_tasks ui_percentage ui_completed_tasks];
    intros H Hn';
    (destruct Hp as [(Ht & Hq)|(Ht & Hq)]; rewrite Ht in H;
     [ cbn [Z.ltb Z.compare] in H; injection H as <-;
       unfold ui_inv, ui_set_progress; cbn [ui_progress_of ui_percentage ui_completed_tasks ui_total_tasks];
       split; [exact Hn'|left; split; [first [exact Ht|reflexivity]|exact Hq]]
     | cbn [Z.ltb Z.compare py_truediv Z.eqb bind] in H; injection H as <-;
       unfold ui_inv, ui_set_progress; cbn [ui_progress_of ui_percentage ui_completed_tasks ui_total_tasks];
       split; [exact Hn'|right; split; [first [exact Ht|reflexivity]|right]];
       rewrite trunc_quarter; reflexivity ]).
Qed.

Lemma ui_inv_step (c : ui_call) (s s' : ui_state) :
  ui_call_step c s = Ok s' -> ui_inv s -> ui_inv s'.
Proof.
  intros H Hi. destruct c as [|op]; simpl in H.
  - injection H as <-. split; [constructor|]. right. split; [reflexivity|]. right. reflexivity.
  - destruct op; simpl in H;
      try (injection H as <-; apply (ui_inv_progress s); [reflexivity|exact Hi]).
    + injection H as <-. exact ui_inv_init.
    + injection H as <-. destruct Hi as (Hn & Hp). split; [exact Hn|]. simpl.
      destruct Hp as [(Ht & _)|(Ht & _)]; [left|right]; split; auto.
    + exact (ui_inv_task_complete _ _ _ _ H Hi).
    + unfold ui_update_analytics in H. destruct (lookup "leads_found" analytics_data);
        injection H as <-; apply (ui_inv_progress s); [reflexivity|exact Hi|reflexivity|exact Hi].
Qed.

Lemma ui_inv_calls_run (cs : list ui_call) (s s' : ui_state) :
  ui_inv s -> ui_calls_run cs s = Ok s' -> ui_inv s'.
Proof.
  revert s; induction cs as [|c t IH]; intros s Hi H; simpl in H.
  - injection H as <-. exact Hi.
  - destruct (ui_call_step c s) as [s1|e] eqn:E; simpl in H; [|discriminate].
    exact (IH s1 (ui_inv_step c s s1 E Hi) H).
Qed.

(** X8.  Start from a fresh [UIProgressListener] and make any sequence of
    calls.  The listener's completed-task list then holds no name twice.
    Either [total_tasks] is 0 and the percentage is 0 or 100, or
    [total_tasks] is 4 and the percentage is 100 or 25 times the number of
    completed tasks.  After [on_workflow_start], five distinct completed task
    names bring the percentage to 125. *)
Theorem ui_progress_percentage_invariant :
  (forall (cs : list ui_call) (s : ui_state),
     ui_calls_run cs ui_init = Ok s ->
     let p := ui_progress_of s in
     NoDup (ui_completed_tasks p)
     /\ ((ui_total_tasks p = 0 /\ (ui_percentage p = 0 \/ ui_percentage p = 100))
         \/ (ui_total_tasks p = 4
             /\ (ui_percentage p = 100
                 \/ ui_percentage p = 25 * Z.of_nat (length (ui_completed_tasks p))))))
  /\ (exists s, ui_calls_run five_ui_completions ui_init = Ok s
       /\ ui_percentage (ui_progress_of s) = 125).
Proof.
  split.
  - intros cs s H. exact (ui_inv_calls_run cs ui_init s ui_inv_init H).
  - eexists. split; [vm_compute; reflexivity|]. reflexivity.
Qed.




(** X10.  When [str(event.get('error', 'Unknown error occurred'))]
    returns a string [s], [handle_error] never hangs, and whether it returns
    or raises it has already appended [s] to the state's errors and set
    [workflow_status] to ['failed'].  When that [str()] raises,
    [handle_error] raises the same exception before any update. *)
Theorem handle_error_records_failure (event : list (string * pyval)) (h : handlers) :
  match py_str (dict_get event "error" (PStr "Unknown error occurred")) with
  | Ok s =>
      match handle_error event h with
      | Returned _ h' | Raised _ h' =>
          errors (state (state_manager h')) = errors (state (state_manager h)) ++ [s]
          /\ workflow_status (state (state_manager h')) = "failed"%string
      | Hung => False
      end
  | Raise e => handle_error event h = Raised e h
  end.
Proof.
  unfold handle_error. cbv zeta.
  destruct (py_str (dict_get event "error" (PStr "Unknown error occurred"))) as [s|e];
    [|reflexivity].
  unfold hbind at 1. unfold hlift at 1. cbv beta iota.
  unfold hbind at 1 2. unfold sm at 1 2. cbv beta iota.
  cbn [with_manager clock state_manager].
  match goal with
  | |- context [?r (with_manager (with_manager ?h1 ?m1) ?m2)] =>
      assert (K : hkeeps r) by (repeat hkeep);
      specialize (K (with_manager (with_manager h1 m1) m2));
      destruct (r (with_manager (with_manager h1 m1) m2))
  end; cbn [state_manager with_manager] in *; try contradiction; rewrite K; split; reflexivity.
Qed.

(** X11.  Whenever [extract_workflow_analytics] returns, its [leads_found]
    is a non-negative integer.  So the workflow's next call
    [record_lead_analytics(found=leads_found)] never raises: the counter
    increases by [leads_found]. *)
Theorem preview_leads_counter (result : pyval) (pv : workflow_preview) (value : Q) :
  extract_workflow_analytics result = Ok pv ->
  0 <= pv_leads_found pv
  /\ record_lead_analytics (pv_leads_found pv) value
     = Ok (value + inject_Z (pv_leads_found pv))%Q.
Proof.
  intros H.
  assert (N : 0 <= pv_leads_found pv).
  { unfold extract_workflow_analytics in H. destruct result; try (injection H as <-; simpl; lia).
    destruct (call_get (dict_get kvs "scrape_leads" (PDict [])) "output" PNone) as [o|];
      cbn [bind] in H; [|discriminate].
    destruct (py_or o (dict_get kvs "leads" PNone)) as [| | | | |xs|kv|]; cbn [bind] in H;
      try (destruct (lookup "leads" kv) as [l|]; [destruct (py_len l)|]; cbn [bind] in H);
      try discriminate;
      (destruct (call_get (dict_get kvs "evaluation" (PDict [])) "score" PNone); cbn [bind] in H;
       [|discriminate]);
      (destruct (call_get (dict_get kvs "save_data" (PDict [])) "output" PNone); cbn [bind] in H;
       [|discriminate]);
      injection H as <-; simpl; lia. }
  split; [exact N|]. unfold record_lead_analytics.
  replace (pv_leads_found pv <? 0) with false by (symmetry; apply Z.ltb_ge; exact N).
  reflexivity.
Qed.

Lemma preview_leads_counter_witness :
  exists pv,
    extract_workflow_analytics
      (PDict [("scrape_leads"%string, PDict [("output"%string, PList [PStr "a"; PStr "b"])])])
    = Ok pv
  /\ 0 <= pv_leads_found pv
  /\ record_lead_analytics (pv_leads_found pv) 0 = Ok (0 + inject_Z (pv_leads_found pv))%Q.
Proof.
  eexists. split; [vm_compute; reflexivity|].
  apply (preview_leads_counter
           (PDict [("scrape_leads"%string, PDict [("output"%string, PList [PStr "a"; PStr "b"])])])).
  vm_compute; reflexivity.
Defined.
